(** * Audio synthesizer for the Raspberry Pi Pico (src/main.c)

    A shallow embedding of the capture / smoothing / rendering / playback
    pipeline, of the button interrupt handler and of the main-loop state
    machine, together with the properties of the specification that can be
    settled on it.

    Conventions.
    - C unsigned integers are [Z] values with their wrap-around written out
      ([u16], [u32]); [size_t] is 32 bits wide on the target.
    - [float] is IEEE-754 binary32 with round-to-nearest-even, every
      operation rounded on its own (no fused multiply-add); it is modelled
      with the parameterised operations of [SpecFloat] at precision 24.
    - A cast from [float] to an integer type truncates toward zero.
    - Calls into the hardware and into the display library are recorded
      as a trace of effects ([efeito]), with the arguments main.c passes.
      The [printf] calls and the one-time initialisation are left out.
    - [clock_get_hz] and the time of an interrupt are inputs of the
      model. *)

From Stdlib Require Import String ZArith List Bool Lia.
From Stdlib Require Import Floats.SpecFloat.
Import ListNotations.

Local Open Scope Z_scope.

(** ** Machine integers *)

Definition u16 (z : Z) : Z := z mod 2 ^ 16.
Definition u32 (z : Z) : Z := z mod 2 ^ 32.

(** ** Single-precision floating point *)

Module Float32.

Definition prec : Z := 24.
Definition emax : Z := 128.

Definition f32 : Type := spec_float.

Definition add : f32 -> f32 -> f32 := SFadd prec emax.
Definition sub : f32 -> f32 -> f32 := SFsub prec emax.
Definition mul : f32 -> f32 -> f32 := SFmul prec emax.
Definition div : f32 -> f32 -> f32 := SFdiv prec emax.

(** Conversion of an integer to [float] (rounded when it needs more
    than 24 bits). *)
Definition of_Z (z : Z) : f32 := binary_normalize prec emax z 0 false.

(** Conversion of a [float] to an integer: the fractional part is
    discarded (truncation toward zero).  Infinities and NaN, for which C
    leaves the conversion undefined, are mapped to 0. *)
Definition trunc (x : f32) : Z :=
  match x with
  | S754_finite s m e =>
      let a := match e with
               | Z0 => Zpos m
               | Zpos p => Zpos m * 2 ^ Zpos p
               | Zneg p => Zpos m / 2 ^ Zpos p
               end in
      if s then - a else a
  | _ => 0
  end.

(** [vale x n d]: the float [x] is exactly the rational [n / d]. *)
Definition vale (x : f32) (n d : Z) : Prop :=
  match x with
  | S754_zero _ => n = 0
  | S754_finite s m e =>
      let a := if s then Zneg m else Zpos m in
      match e with
      | Z0 => a * d = n
      | Zpos p => a * 2 ^ Zpos p * d = n
      | Zneg p => a * d = n * 2 ^ Zpos p
      end
  | _ => False
  end.

(** A decimal literal [n/d] written with the [f] suffix: the nearest
    binary32 value. *)
Definition literal (n d : Z) : f32 := div (of_Z n) (of_Z d).

End Float32.

Import Float32.

(** ** Constants of the project (the [#define]s of main.c) *)

Definition PINO_BOTAO_GRAVAR : Z := 5.
Definition PINO_BOTAO_REPRODUZIR : Z := 6.
Definition PINO_LED_VERMELHO : Z := 13.
Definition PINO_LED_VERDE : Z := 11.
Definition PINO_LED_AZUL : Z := 12.
Definition PINO_BUZZER_1 : Z := 21.
Definition PINO_BUZZER_2 : Z := 10.

Definition DISPLAY_WIDTH : Z := 128.
Definition DISPLAY_HEIGHT : Z := 64.

Definition TAXA_AMOSTRAGEM : Z := 48000.
Definition DURACAO_GRAVACAO_S : Z := 2.
Definition TAMANHO_BUFFER_AUDIO : Z := TAXA_AMOSTRAGEM * DURACAO_GRAVACAO_S.

(** [0.2f] and [1.7f]. *)
Definition FATOR_SUAVIZACAO : f32 := Eval vm_compute in literal 2 10.
Definition GANHO_SAIDA_AUDIO : f32 := Eval vm_compute in literal 17 10.

Definition TEMPO_DEBOUNCE_BOTAO_MS : Z := 200.

(** ** The smoothing filter *)

(** [suavizar_sinal_audio]: [(uint16_t)(fator * amostra_atual +
    (1.0f - fator) * amostra_anterior)]. *)
Definition suavizar_sinal_audio (amostra_atual amostra_anterior : Z) (fator : f32) : Z :=
  u16 (trunc (add (mul fator (of_Z amostra_atual))
                  (mul (sub (of_Z 1) fator) (of_Z amostra_anterior)))).

(** ** Effects on the hardware and on the display library

    Every call that leaves main.c, and every access to the sample buffer
    (by the CPU or by the DMA engine), is one entry of the trace. *)

Inductive efeito : Type :=
| GpioPut (pino : Z) (valor : bool)
| AdcSetClkdiv (divisor : f32)
| AdcFifoDrain
| AdcRun (ligado : bool)
| DmaChannelConfigure (n_transferencias : Z)
| DmaChannelWait
| LeAmostra (indice : Z)
| EscreveAmostra (indice : Z) (valor : Z)
| PwmSetGpioLevel (pino : Z) (nivel : Z)
| SleepUs (us : Z)
| SleepMs (ms : Z)
| MemsetTela
| DrawString (x y : Z) (texto : string)
| SetPixel (x y : Z) (ligado : bool)
| RenderOnDisplay.

(** ** The sample buffer

    [buffer_de_amostras] is a list of 16-bit values.  An access outside
    the list (undefined in C) reads 0 and writes nothing. *)

Definition ler (buf : list Z) (i : Z) : Z := nth (Z.to_nat i) buf 0.

Fixpoint escrever_nat (i : nat) (v : Z) (buf : list Z) : list Z :=
  match buf, i with
  | [], _ => []
  | _ :: r, O => v :: r
  | x :: r, S j => x :: escrever_nat j v r
  end.

Definition escrever (buf : list Z) (i : Z) (v : Z) : list Z :=
  escrever_nat (Z.to_nat i) v buf.

(** The store indices of a trace. *)
Fixpoint indices_escritos (t : list efeito) : list Z :=
  match t with
  | [] => []
  | EscreveAmostra i _ :: r => i :: indices_escritos r
  | _ :: r => indices_escritos r
  end.

(** The load indices of a trace. *)
Fixpoint indices_lidos (t : list efeito) : list Z :=
  match t with
  | [] => []
  | LeAmostra i :: r => i :: indices_lidos r
  | _ :: r => indices_lidos r
  end.

(** The PWM writes of a trace, as (pin, level). *)
Fixpoint niveis_pwm (t : list efeito) : list (Z * Z) :=
  match t with
  | [] => []
  | PwmSetGpioLevel p n :: r => (p, n) :: niveis_pwm r
  | _ :: r => niveis_pwm r
  end.

(** The pixels set by a trace. *)
Fixpoint pixels (t : list efeito) : list (Z * Z) :=
  match t with
  | [] => []
  | SetPixel x y _ :: r => (x, y) :: pixels r
  | _ :: r => pixels r
  end.

(** The LED writes of a trace. *)
Fixpoint escritas_gpio (t : list efeito) : list (Z * bool) :=
  match t with
  | [] => []
  | GpioPut p v :: r => (p, v) :: escritas_gpio r
  | _ :: r => escritas_gpio r
  end.

(** ** Acquisition *)

(** The block transfer: the DMA channel is configured with a fixed read
    address (the ADC FIFO), an incrementing write address and [n]
    transfers of 16 bits, so conversion [k] (in arrival order) lands in
    [destino[k]].  [adc k] is the [k]-th conversion after the drain. *)
Fixpoint dma_transferir (adc : nat -> Z) (k n : nat) (buf : list Z)
  : list Z * list efeito :=
  match n with
  | O => (buf, [])
  | S n' =>
      let v := u16 (adc k) in
      let '(buf', t) := dma_transferir adc (S k) n' (escrever buf (Z.of_nat k) v) in
      (buf', EscreveAmostra (Z.of_nat k) v :: t)
  end.

Definition capturar_amostras_via_dma (adc : nat -> Z) (destino : list Z) (n_amostras : Z)
  : list Z * list efeito :=
  let '(buf, t) := dma_transferir adc 0 (Z.to_nat n_amostras) destino in
  (buf, [AdcFifoDrain; AdcRun false; DmaChannelConfigure n_amostras; AdcRun true]
        ++ t ++ [DmaChannelWait; AdcRun false]).

(** The smoothing loop of [processo_de_gravacao]: [n] more iterations
    starting at index [i], with [amostra_suavizada] the previous output. *)
Fixpoint laco_suavizacao (n : nat) (i : Z) (amostra_suavizada : Z) (buf : list Z)
  : list Z * list efeito :=
  match n with
  | O => (buf, [])
  | S n' =>
      let s := suavizar_sinal_audio (ler buf i) amostra_suavizada FATOR_SUAVIZACAO in
      let '(buf', t) := laco_suavizacao n' (i + 1) s (escrever buf i s) in
      (buf', LeAmostra i :: EscreveAmostra i s :: t)
  end.

(** The clamped sample count (lines 249-252): the product is computed in
    32 bits. *)
Definition total_de_amostras (freq_amostragem duracao_seg : Z) : Z :=
  let total := u32 (freq_amostragem * duracao_seg) in
  if total >? TAMANHO_BUFFER_AUDIO then TAMANHO_BUFFER_AUDIO else total.

(** [processo_de_gravacao]: the new buffer, the returned count and the
    trace.  [clk_adc] is [clock_get_hz(clk_adc)]. *)
Definition processo_de_gravacao (clk_adc : Z) (adc : nat -> Z) (buf : list Z)
    (freq_amostragem duracao_seg : Z) : list Z * Z * list efeito :=
  let total := total_de_amostras freq_amostragem duracao_seg in
  let divisor_clock_adc := div (of_Z clk_adc) (mul (of_Z freq_amostragem) (of_Z 1)) in
  let '(buf1, t1) := capturar_amostras_via_dma adc buf total in
  let amostra_suavizada := ler buf1 0 in
  let '(buf2, t2) := laco_suavizacao (Z.to_nat total - 1) 1 amostra_suavizada buf1 in
  (buf2, total, [AdcSetClkdiv divisor_clock_adc] ++ t1 ++ [LeAmostra 0] ++ t2).

(** The samples that the ADC delivers to a capture of [n] samples. *)
Definition bloco_capturado (adc : nat -> Z) (n : Z) : list Z :=
  map (fun j => u16 (adc j)) (seq 0 (Z.to_nat n)).

(** The ADC readings of the example of the specification. *)
Definition adc_exemplo (k : nat) : Z := nth k [4095; 0; 4095; 0] 0.

(** The filter on a block, as a list function: the block that the
    smoothing pass leaves in [buffer[0..n)]. *)
Fixpoint suavizar_resto (anterior : Z) (l : list Z) : list Z :=
  match l with
  | [] => []
  | x :: r =>
      let s := suavizar_sinal_audio x anterior FATOR_SUAVIZACAO in
      s :: suavizar_resto s r
  end.

Definition suavizar_bloco (l : list Z) : list Z :=
  match l with
  | [] => []
  | x :: r => x :: suavizar_resto x r
  end.

(** The formula of the specification, with rounding to the nearest
    integer of the exact value [0.2 * x + 0.8 * anterior = (x + 4 *
    anterior) / 5] (the fractional part is a multiple of 1/5, so there
    are no ties). *)
Definition ema_arredondada (x anterior : Z) : Z := (2 * (x + 4 * anterior) + 5) / 10.

(** The same exact value truncated. *)
Definition ema_truncada (x anterior : Z) : Z := (x + 4 * anterior) / 5.

(** The recursion of the specification with truncation, on a block. *)
Fixpoint ema_resto (anterior : Z) (l : list Z) : list Z :=
  match l with
  | [] => []
  | x :: r => let s := ema_truncada x anterior in s :: ema_resto s r
  end.

Definition ema_bloco (l : list Z) : list Z :=
  match l with
  | [] => []
  | x :: r => x :: ema_resto x r
  end.

(** On a full-scale square wave (inputs 0 and 4095) the filter output
    is the truncated exact value. *)
Definition suavizacao_confere (anterior : Z) : bool :=
  (suavizar_sinal_audio 0 anterior FATOR_SUAVIZACAO =? ema_truncada 0 anterior)
  && (suavizar_sinal_audio 4095 anterior FATOR_SUAVIZACAO =? ema_truncada 4095 anterior).

(** ** Playback *)

(** [valor_max_pwm] (lines 270-272); [clk_sys] is
    [clock_get_hz(clk_sys)].  A zero [freq_amostragem] (a division by zero
    in C) is outside the model. *)
Definition valor_max_pwm (clk_sys freq_amostragem : Z) : Z :=
  let v := u32 (clk_sys / freq_amostragem - 1) in
  if v =? 0 then 1 else v.

(** [(uint32_t)(dados[i] * GANHO_SAIDA_AUDIO)] as a float, before the
    cast. *)
Definition amostra_escalada (amostra : Z) : f32 := mul (of_Z amostra) GANHO_SAIDA_AUDIO.

(** The truncated product is the integer part of [1.7 * amostra]. *)
Definition escala_confere (amostra : Z) : bool :=
  u32 (trunc (amostra_escalada amostra)) =? 17 * amostra / 10.

(** [amostra_amplificada] after the clip of line 277. *)
Definition amostra_amplificada (amostra : Z) : Z :=
  let a := u32 (trunc (amostra_escalada amostra)) in
  if a >? 4095 then 4095 else a.

(** [nivel_pwm] (line 280), a 32-bit product and quotient. *)
Definition nivel_pwm (amostra max_pwm : Z) : Z :=
  u32 (amostra_amplificada amostra * max_pwm) / 4095.

(** One iteration of the playback loop. *)
Definition passo_reproducao (pino_a pino_b : Z) (dados : list Z) (max_pwm atraso_us : Z)
    (i : Z) : list efeito :=
  let nivel := nivel_pwm (ler dados i) max_pwm in
  [LeAmostra i; PwmSetGpioLevel pino_a nivel; PwmSetGpioLevel pino_b nivel;
   SleepUs atraso_us].

(** The indices [0 .. n-1] of a [for (size_t i = 0; i < n; ++i)] loop. *)
Definition indices (n : Z) : list Z := map Z.of_nat (seq 0 (Z.to_nat n)).

Definition processo_de_reproducao (clk_sys : Z) (pino_a pino_b : Z) (dados : list Z)
    (n_amostras freq_amostragem : Z) : list efeito :=
  let max_pwm := valor_max_pwm clk_sys freq_amostragem in
  flat_map (passo_reproducao pino_a pino_b dados max_pwm (1000000 / freq_amostragem))
           (indices n_amostras)
  ++ [PwmSetGpioLevel pino_a 0; PwmSetGpioLevel pino_b 0].

(** ** Waveform rendering *)

Definition y_offset : Z := 12.
Definition altura_desenho : Z := DISPLAY_HEIGHT - y_offset.
Definition y_centro : Z := y_offset + altura_desenho / 2.
Definition ADC_ZERO : Z := 2048.
Definition GANHO_VISUAL : f32 := Eval vm_compute in of_Z 4.

Definition colunas_a_desenhar (n_amostras : Z) : Z :=
  if n_amostras <? DISPLAY_WIDTH then n_amostras else DISPLAY_WIDTH.

(** [indice_amostra] (line 351); the product is a [size_t]. *)
Definition indice_amostra (n_amostras x : Z) : Z :=
  if n_amostras >? DISPLAY_WIDTH then u32 (x * n_amostras) / DISPLAY_WIDTH else x.

(** [y_final] after the two clipping tests (lines 354-361). *)
Definition y_final (amostra : Z) : Z :=
  let amplitude := amostra - ADC_ZERO in
  let y := y_centro
           - trunc (mul (mul (div (of_Z amplitude) (of_Z ADC_ZERO))
                             (div (of_Z altura_desenho) (of_Z 2)))
                        GANHO_VISUAL) in
  let y := if y <? y_offset then y_offset else y in
  if y >=? DISPLAY_HEIGHT then DISPLAY_HEIGHT - 1 else y.

(** The integers [lo, lo+1, ..., hi]. *)
Definition faixa (lo hi : Z) : list Z :=
  map (fun k => lo + Z.of_nat k) (seq 0 (Z.to_nat (hi - lo + 1))).

Definition desenhar_coluna (dados_audio : list Z) (n_amostras x : Z) : list efeito :=
  let i := indice_amostra n_amostras x in
  let yf := y_final (ler dados_audio i) in
  LeAmostra i ::
  (if yf >? y_centro
   then map (fun y => SetPixel x y true) (faixa y_centro yf)
   else map (fun y => SetPixel x y true) (faixa yf y_centro)).

Definition mostrar_waveform_display (dados_audio : list Z) (n_amostras : Z) : list efeito :=
  [MemsetTela; DrawString 10 0 "Onda capturada"]
  ++ flat_map (desenhar_coluna dados_audio n_amostras)
              (indices (colunas_a_desenhar n_amostras))
  ++ [RenderOnDisplay].

Definition apagar_tela : list efeito := [MemsetTela; RenderOnDisplay].

Definition definir_cor_led (vermelho verde azul : bool) : list efeito :=
  [GpioPut PINO_LED_VERMELHO vermelho; GpioPut PINO_LED_VERDE verde;
   GpioPut PINO_LED_AZUL azul].

(** ** Buttons *)

(** The globals shared by the interrupt handler and the main loop. *)
Record botoes : Type := {
  flag_botao_gravar_ativado : bool;
  flag_botao_reproduzir_ativado : bool;
  ultimo_acionamento_gravar : Z;
  ultimo_acionamento_reproduzir : Z
}.

(** Their initial values (lines 67-72). *)
Definition botoes_iniciais : botoes :=
  {| flag_botao_gravar_ativado := false;
     flag_botao_reproduzir_ativado := false;
     ultimo_acionamento_gravar := 0;
     ultimo_acionamento_reproduzir := 0 |}.

(** [agora - ultimo] on [uint32_t]. *)
Definition decorrido (agora ultimo : Z) : Z := u32 (agora - ultimo).

(** [tratador_interrupcao_botao]; [agora] is
    [to_ms_since_boot(get_absolute_time())]. *)
Definition tratador_interrupcao_botao (pino agora : Z) (b : botoes) : botoes :=
  let b :=
    if pino =? PINO_BOTAO_GRAVAR then
      if decorrido agora (ultimo_acionamento_gravar b) >? TEMPO_DEBOUNCE_BOTAO_MS then
        {| flag_botao_gravar_ativado := true;
           flag_botao_reproduzir_ativado := flag_botao_reproduzir_ativado b;
           ultimo_acionamento_gravar := agora;
           ultimo_acionamento_reproduzir := ultimo_acionamento_reproduzir b |}
      else b
    else b in
  if pino =? PINO_BOTAO_REPRODUZIR then
    if decorrido agora (ultimo_acionamento_reproduzir b) >? TEMPO_DEBOUNCE_BOTAO_MS then
      {| flag_botao_gravar_ativado := flag_botao_gravar_ativado b;
         flag_botao_reproduzir_ativado := true;
         ultimo_acionamento_gravar := ultimo_acionamento_gravar b;
         ultimo_acionamento_reproduzir := agora |}
    else b
  else b.

(** A button, with its pin, its pending flag and its last accepted
    timestamp. *)
Inductive botao : Type := Gravar | Reproduzir.

Definition pino_de (k : botao) : Z :=
  match k with Gravar => PINO_BOTAO_GRAVAR | Reproduzir => PINO_BOTAO_REPRODUZIR end.

Definition flag_de (k : botao) (b : botoes) : bool :=
  match k with
  | Gravar => flag_botao_gravar_ativado b
  | Reproduzir => flag_botao_reproduzir_ativado b
  end.

Definition ultimo_de (k : botao) (b : botoes) : Z :=
  match k with
  | Gravar => ultimo_acionamento_gravar b
  | Reproduzir => ultimo_acionamento_reproduzir b
  end.

(** The state after an accepted edge on button [k] at time [agora]. *)
Definition aceitar (k : botao) (agora : Z) (b : botoes) : botoes :=
  match k with
  | Gravar =>
      {| flag_botao_gravar_ativado := true;
         flag_botao_reproduzir_ativado := flag_botao_reproduzir_ativado b;
         ultimo_acionamento_gravar := agora;
         ultimo_acionamento_reproduzir := ultimo_acionamento_reproduzir b |}
  | Reproduzir =>
      {| flag_botao_gravar_ativado := flag_botao_gravar_ativado b;
         flag_botao_reproduzir_ativado := true;
         ultimo_acionamento_gravar := ultimo_acionamento_gravar b;
         ultimo_acionamento_reproduzir := agora |}
  end.

(** The edge at [agora] on button [k] passes the debounce test. *)
Definition fora_da_janela (k : botao) (agora : Z) (b : botoes) : bool :=
  decorrido agora (ultimo_de k b) >? TEMPO_DEBOUNCE_BOTAO_MS.

(** A sequence of edges, each a pin and the time of its interrupt. *)
Definition tratar_bordas (bordas : list (Z * Z)) (b : botoes) : botoes :=
  fold_left (fun b e => tratador_interrupcao_botao (fst e) (snd e) b) bordas b.

Definition limpar_flag_gravar (b : botoes) : botoes :=
  {| flag_botao_gravar_ativado := false;
     flag_botao_reproduzir_ativado := flag_botao_reproduzir_ativado b;
     ultimo_acionamento_gravar := ultimo_acionamento_gravar b;
     ultimo_acionamento_reproduzir := ultimo_acionamento_reproduzir b |}.

Definition limpar_flag_reproduzir (b : botoes) : botoes :=
  {| flag_botao_gravar_ativado := flag_botao_gravar_ativado b;
     flag_botao_reproduzir_ativado := false;
     ultimo_acionamento_gravar := ultimo_acionamento_gravar b;
     ultimo_acionamento_reproduzir := ultimo_acionamento_reproduzir b |}.

(** ** The main loop *)

Inductive estado : Type := MODO_ESPERA | MODO_AGUARDANDO_PLAYBACK.

(** The state of the program between two iterations of [while (true)]:
    the globals, the two locals of [main] and the trace so far. *)
Record sistema : Type := {
  botoes_do_sistema : botoes;
  estado_do_sistema : estado;
  total_amostras_capturadas : Z;
  buffer_de_amostras : list Z;
  rastro : list efeito
}.

(** What the outside world does during one iteration: the conversions the
    ADC delivers if the iteration records, and the button edges whose
    interrupts arrive while the iteration is inside its blocking calls
    (after the flag it tested has been reset, before line 147).  An
    iteration that finds its flag clear makes no blocking call and does
    not look at [bordas]; an edge at any other time is an event of its
    own between two iterations ([Borda] below). *)
Record ambiente : Type := {
  adc : nat -> Z;
  bordas : list (Z * Z)
}.

Section Principal.

(** [clock_get_hz(clk_sys)] and [clock_get_hz(clk_adc)]. *)
Variables clk_sys clk_adc : Z.

(** The playback of the captured block, as the play branch runs it. *)
Definition reproducao_de (s : sistema) : list efeito :=
  processo_de_reproducao clk_sys PINO_BUZZER_1 PINO_BUZZER_2 (buffer_de_amostras s)
    (total_amostras_capturadas s) TAXA_AMOSTRAGEM.

(** The capture that the record branch runs. *)
Definition gravacao_de (amb : ambiente) (s : sistema) : list Z * Z * list efeito :=
  processo_de_gravacao clk_adc (adc amb) (buffer_de_amostras s)
    TAXA_AMOSTRAGEM DURACAO_GRAVACAO_S.

(** The body of [case MODO_ESPERA] when the record flag is set. *)
Definition ramo_gravar (amb : ambiente) (s : sistema) : sistema :=
  let b := limpar_flag_gravar (botoes_do_sistema s) in
  let g := gravacao_de amb s in
  let buf := fst (fst g) in
  let total := snd (fst g) in
  let t_onda := mostrar_waveform_display buf total in
  {| botoes_do_sistema := tratar_bordas (bordas amb) b;
     estado_do_sistema := MODO_AGUARDANDO_PLAYBACK;
     total_amostras_capturadas := total;
     buffer_de_amostras := buf;
     rastro := rastro s ++ definir_cor_led true false false ++ snd g
               ++ definir_cor_led false false false ++ t_onda |}.

(** The body of [case MODO_AGUARDANDO_PLAYBACK] when the play flag is
    set. *)
Definition ramo_reproduzir (amb : ambiente) (s : sistema) : sistema :=
  let b := limpar_flag_reproduzir (botoes_do_sistema s) in
  let t_rep := reproducao_de s in
  {| botoes_do_sistema := limpar_flag_gravar (tratar_bordas (bordas amb) b);
     estado_do_sistema := MODO_ESPERA;
     total_amostras_capturadas := total_amostras_capturadas s;
     buffer_de_amostras := buffer_de_amostras s;
     rastro := rastro s ++ definir_cor_led false true false ++ t_rep
               ++ definir_cor_led false false false ++ apagar_tela |}.

Definition dormir (s : sistema) : sistema :=
  {| botoes_do_sistema := botoes_do_sistema s;
     estado_do_sistema := estado_do_sistema s;
     total_amostras_capturadas := total_amostras_capturadas s;
     buffer_de_amostras := buffer_de_amostras s;
     rastro := rastro s ++ [SleepMs 10] |}.

(** One iteration of the [while (true)] loop of [main]. *)
Definition iteracao (amb : ambiente) (s : sistema) : sistema :=
  dormir
    match estado_do_sistema s with
    | MODO_ESPERA =>
        if flag_botao_gravar_ativado (botoes_do_sistema s)
        then ramo_gravar amb s else s
    | MODO_AGUARDANDO_PLAYBACK =>
        if flag_botao_reproduzir_ativado (botoes_do_sistema s)
        then ramo_reproduzir amb s else s
    end.

(** An interrupt between two iterations. *)
Definition interrupcao (pino agora : Z) (s : sistema) : sistema :=
  {| botoes_do_sistema := tratador_interrupcao_botao pino agora (botoes_do_sistema s);
     estado_do_sistema := estado_do_sistema s;
     total_amostras_capturadas := total_amostras_capturadas s;
     buffer_de_amostras := buffer_de_amostras s;
     rastro := rastro s |}.

Inductive evento : Type :=
| Borda (pino agora : Z)
| Volta (amb : ambiente).

Definition passo (s : sistema) (e : evento) : sistema :=
  match e with
  | Borda pino agora => interrupcao pino agora s
  | Volta amb => iteracao amb s
  end.

Definition executar (es : list evento) (s : sistema) : sistema :=
  fold_left passo es s.

End Principal.

(** The state when the loop is entered: [MODO_ESPERA], no sample
    captured, no flag pending.  The trace starts after the
    initialisation. *)
Definition sistema_inicial (buf : list Z) : sistema :=
  {| botoes_do_sistema := botoes_iniciais;
     estado_do_sistema := MODO_ESPERA;
     total_amostras_capturadas := 0;
     buffer_de_amostras := buf;
     rastro := [] |}.

(** ** Measures of a trace *)

(** The time a trace spends in [sleep_us], in microseconds. *)
Fixpoint tempo_us (t : list efeito) : Z :=
  match t with
  | [] => 0
  | SleepUs us :: r => us + tempo_us r
  | _ :: r => tempo_us r
  end.

(** The number of block transfers a trace starts: one per recording. *)
Fixpoint contar_gravacoes (t : list efeito) : Z :=
  match t with
  | [] => 0
  | DmaChannelConfigure _ :: r => 1 + contar_gravacoes r
  | _ :: r => contar_gravacoes r
  end.

(** The number of times a trace turns the green LED on: one per
    playback. *)
Fixpoint contar_reproducoes (t : list efeito) : Z :=
  match t with
  | [] => 0
  | GpioPut p true :: r =>
      (if p =? PINO_LED_VERDE then 1 else 0) + contar_reproducoes r
  | _ :: r => contar_reproducoes r
  end.

(** [y_final] in integers: the amplitude times 13/256 (that is
    [/ 2048 * 26 * 4]), truncated toward zero, taken from the midline and
    clipped to the rows 12..63. *)
Definition y_final_exato (amostra : Z) : Z :=
  Z.max y_offset
    (Z.min (DISPLAY_HEIGHT - 1) (y_centro - Z.quot ((amostra - ADC_ZERO) * 13) 256)).

Definition y_final_confere (amostra : Z) : bool :=
  y_final amostra =? y_final_exato amostra.

(** The filter leaves a constant level where it is. *)
Definition constante_confere (x : Z) : bool :=
  suavizar_sinal_audio x x FATOR_SUAVIZACAO =? x.

(** ** Sequences of edges *)

(** The times of the edges of a sequence that the handler accepts on
    button [k], in order. *)
Fixpoint aceitas (k : botao) (bordas : list (Z * Z)) (b : botoes) : list Z :=
  match bordas with
  | [] => []
  | (pino, agora) :: r =>
      let b' := tratador_interrupcao_botao pino agora b in
      if (pino =? pino_de k) && fora_da_janela k agora b
      then agora :: aceitas k r b'
      else aceitas k r b'
  end.

(** The edges come in the order of their times, none before [u], on a
    millisecond counter that has not wrapped. *)
Fixpoint em_ordem (u : Z) (bordas : list (Z * Z)) : Prop :=
  match bordas with
  | [] => True
  | (_, agora) :: r => u <= agora < 2 ^ 32 /\ em_ordem agora r
  end.

(** Each time is more than the debounce window after the one before it,
    the first after [u]. *)
Fixpoint espacadas (u : Z) (tempos : list Z) : Prop :=
  match tempos with
  | [] => True
  | t :: r => t - u > TEMPO_DEBOUNCE_BOTAO_MS /\ espacadas t r
  end.

(** ** PWM set-up

    [configurar_saida_pwm] (lines 222-234): the counter wrap that it
    computes, and the wrap that the slice is configured with:
    [pwm_config_set_wrap] takes a 16-bit value. *)

Definition topo_pwm (clk_sys frequencia_base : Z) : Z :=
  let top := u32 (clk_sys / frequencia_base - 1) in
  if top =? 0 then 1 else top.

Definition wrap_configurado (clk_sys frequencia_base : Z) : Z :=
  u16 (topo_pwm clk_sys frequencia_base).

(** ** Peripherals

    The peripheral that an entry of the trace acts on; [Memoria] is the
    sample buffer. *)

Inductive periferico : Type :=
| Gpio | Adc | Dma | Memoria | Pwm | Temporizador | Tela.

Definition periferico_de (e : efeito) : periferico :=
  match e with
  | GpioPut _ _ => Gpio
  | AdcSetClkdiv _ | AdcFifoDrain | AdcRun _ => Adc
  | DmaChannelConfigure _ | DmaChannelWait => Dma
  | LeAmostra _ | EscreveAmostra _ _ => Memoria
  | PwmSetGpioLevel _ _ => Pwm
  | SleepUs _ | SleepMs _ => Temporizador
  | MemsetTela | DrawString _ _ _ | SetPixel _ _ _ | RenderOnDisplay => Tela
  end.

Definition periferico_eqb (p q : periferico) : bool :=
  match p, q with
  | Gpio, Gpio | Adc, Adc | Dma, Dma | Memoria, Memoria | Pwm, Pwm
  | Temporizador, Temporizador | Tela, Tela => true
  | _, _ => false
  end.

(** Every entry of the trace acts on one of the peripherals [ps]. *)
Definition so_usa (ps : list periferico) (t : list efeito) : bool :=
  forallb (fun e => existsb (periferico_eqb (periferico_de e)) ps) t.

(** ** Measures of a run *)

(** The time a trace spends in [sleep_ms], in milliseconds. *)
Fixpoint tempo_ms (t : list efeito) : Z :=
  match t with
  | [] => 0
  | SleepMs ms :: r => ms + tempo_ms r
  | _ :: r => tempo_ms r
  end.

(** The number of passes of the [while (true)] loop among the events of
    a run. *)
Fixpoint voltas (es : list evento) : Z :=
  match es with
  | [] => 0
  | Volta _ :: r => 1 + voltas r
  | Borda _ _ :: r => voltas r
  end.

Definition aguardando (s : sistema) : bool :=
  match estado_do_sistema s with
  | MODO_AGUARDANDO_PLAYBACK => true
  | MODO_ESPERA => false
  end.

(** The GPIO writes of one episode of the LED: a colour (green for a
    playback, red for a recording), then off. *)
Definition episodio_led (verde : bool) : list (Z * bool) :=
  escritas_gpio (definir_cor_led (negb verde) verde false
                 ++ definir_cor_led false false false).

(** The GPIO writes of [ciclos] cycles of a recording and a playback,
    and of one more recording if [pendente]. *)
Definition historico_led (ciclos : nat) (pendente : bool) : list (Z * bool) :=
  concat (repeat (episodio_led false ++ episodio_led true) ciclos)
  ++ (if pendente then episodio_led false else []).

(** What holds of the state between any two steps of a run, for a buffer
    of [capacidade] slots. *)
Definition invariante_do_laco (capacidade : nat) (s : sistema) : Prop :=
  length (buffer_de_amostras s) = capacidade
  /\ 0 <= contar_reproducoes (rastro s)
  /\ contar_gravacoes (rastro s)
     = contar_reproducoes (rastro s) + (if aguardando s then 1 else 0)
  /\ total_amostras_capturadas s
     = (if contar_gravacoes (rastro s) =? 0 then 0 else TAMANHO_BUFFER_AUDIO)
  /\ escritas_gpio (rastro s)
     = historico_led (Z.to_nat (contar_reproducoes (rastro s))) (aguardando s)
  /\ tempo_us (rastro s) = 1920000 * contar_reproducoes (rastro s)
  /\ Forall (fun i => 0 <= i < TAMANHO_BUFFER_AUDIO) (indices_lidos (rastro s))
  /\ Forall (fun i => 0 <= i < TAMANHO_BUFFER_AUDIO) (indices_escritos (rastro s)).

(** ** Example runs

    The zeroed buffer of the project, a quiet environment, one in which
    the record button is pressed during the blocking call and one in
    which the play button is, and three states of runs that start at
    boot: the record button pressed at 3 s, the play button pressed at
    2.5 s, and the first of these after its recording and a press of the
    play button at 9 s. *)

Definition buffer_inicial : list Z := repeat 0 (Z.to_nat TAMANHO_BUFFER_AUDIO).

Definition ambiente_calmo : ambiente := {| adc := adc_exemplo; bordas := [] |}.

Definition ambiente_com_gravar : ambiente :=
  {| adc := adc_exemplo; bordas := [(PINO_BOTAO_GRAVAR, 9500)] |}.

Definition ambiente_com_reproduzir : ambiente :=
  {| adc := adc_exemplo; bordas := [(PINO_BOTAO_REPRODUZIR, 3500)] |}.

Definition exemplo_gravar_pendente : sistema :=
  interrupcao PINO_BOTAO_GRAVAR 3000 (sistema_inicial buffer_inicial).

Definition exemplo_reproduzir_pendente : sistema :=
  interrupcao PINO_BOTAO_REPRODUZIR 2500 (sistema_inicial buffer_inicial).

Definition exemplo_aguardando : sistema :=
  interrupcao PINO_BOTAO_REPRODUZIR 9000
    (iteracao 125000000 48000000 ambiente_calmo exemplo_gravar_pendente).

(** * Properties *)

(** ** Machine integers *)

Lemma u32_range (z : Z) : 0 <= u32 z < 2 ^ 32.
Proof. unfold u32. apply Z.mod_pos_bound. lia. Qed.

Lemma u16_range (z : Z) : 0 <= u16 z < 2 ^ 16.
Proof. unfold u16. apply Z.mod_pos_bound. lia. Qed.

Lemma u32_small (z : Z) : 0 <= z < 2 ^ 32 -> u32 z = z.
Proof. intros H. unfold u32. apply Z.mod_small. exact H. Qed.

Lemma u16_small (z : Z) : 0 <= z < 2 ^ 16 -> u16 z = z.
Proof. intros H. unfold u16. apply Z.mod_small. exact H. Qed.

(** ** Loop indices *)

Lemma in_indices (n x : Z) : In x (indices n) <-> 0 <= x < n.
Proof.
  unfold indices. rewrite in_map_iff. split.
  - intros [k [<- Hk]]. apply in_seq in Hk. lia.
  - intros H. exists (Z.to_nat x). split; [lia|]. apply in_seq. lia.
Qed.

Lemma forallb_indices (f : Z -> bool) (n x : Z) :
  forallb f (indices n) = true -> 0 <= x < n -> f x = true.
Proof.
  intros H Hx. rewrite forallb_forall in H. apply H.
  unfold indices. apply in_map_iff. exists (Z.to_nat x). split; [lia|].
  apply in_seq. lia.
Qed.

(** ** The clamp of the sample count *)

Lemma total_de_amostras_limites (freq dur : Z) :
  0 <= total_de_amostras freq dur <= TAMANHO_BUFFER_AUDIO.
Proof.
  unfold total_de_amostras. pose proof (u32_range (freq * dur)) as H.
  destruct (u32 (freq * dur) >? TAMANHO_BUFFER_AUDIO) eqn:E.
  - vm_compute. split; discriminate.
  - rewrite Z.gtb_ltb in E; apply Z.ltb_ge in E. lia.
Qed.

(** When the product fits 32 bits the count is the clamped product. *)
Lemma total_de_amostras_satura (freq dur : Z) :
  0 <= freq * dur < 2 ^ 32 ->
  total_de_amostras freq dur = Z.min (freq * dur) TAMANHO_BUFFER_AUDIO.
Proof.
  intros H. unfold total_de_amostras. rewrite u32_small by exact H.
  destruct (freq * dur >? TAMANHO_BUFFER_AUDIO) eqn:E.
  - apply Z.gtb_lt in E. lia.
  - rewrite Z.gtb_ltb in E; apply Z.ltb_ge in E. lia.
Qed.

(** ** The sample buffer *)

Lemma escrever_nat_length (i : nat) (v : Z) (buf : list Z) :
  length (escrever_nat i v buf) = length buf.
Proof.
  revert i; induction buf as [|x r IH]; intros [|j]; simpl; auto.
Qed.

Lemma escrever_nat_meio (pre : list Z) (x v : Z) (post : list Z) :
  escrever_nat (length pre) v (pre ++ x :: post) = pre ++ v :: post.
Proof.
  induction pre as [|y pre IH]; simpl; [reflexivity|]. now rewrite IH.
Qed.

Lemma escrever_meio (pre : list Z) (x v : Z) (post : list Z) (i : Z) :
  i = Z.of_nat (length pre) ->
  escrever (pre ++ x :: post) i v = pre ++ v :: post.
Proof.
  intros ->. unfold escrever. rewrite Nat2Z.id. apply escrever_nat_meio.
Qed.

Lemma ler_meio (pre : list Z) (x : Z) (post : list Z) (i : Z) :
  i = Z.of_nat (length pre) -> ler (pre ++ x :: post) i = x.
Proof.
  intros ->. unfold ler. rewrite Nat2Z.id. apply nth_middle.
Qed.

Lemma escrever_nat_fora (i : nat) (v : Z) (buf : list Z) :
  (length buf <= i)%nat -> escrever_nat i v buf = buf.
Proof.
  revert i; induction buf as [|x r IH]; intros [|j] H; simpl in *; try reflexivity; try lia.
  rewrite IH by lia. reflexivity.
Qed.

Lemma indices_escritos_app (t u : list efeito) :
  indices_escritos (t ++ u) = indices_escritos t ++ indices_escritos u.
Proof.
  induction t as [|e t IH]; simpl; [reflexivity|].
  destruct e; simpl; rewrite IH; reflexivity.
Qed.

Lemma indices_lidos_app (t u : list efeito) :
  indices_lidos (t ++ u) = indices_lidos t ++ indices_lidos u.
Proof.
  induction t as [|e t IH]; simpl; [reflexivity|].
  destruct e; simpl; rewrite IH; reflexivity.
Qed.

Lemma niveis_pwm_app (t u : list efeito) :
  niveis_pwm (t ++ u) = niveis_pwm t ++ niveis_pwm u.
Proof.
  induction t as [|e t IH]; simpl; [reflexivity|].
  destruct e; simpl; rewrite IH; reflexivity.
Qed.

Lemma pixels_app (t u : list efeito) : pixels (t ++ u) = pixels t ++ pixels u.
Proof.
  induction t as [|e t IH]; simpl; [reflexivity|].
  destruct e; simpl; rewrite IH; reflexivity.
Qed.

Lemma escritas_gpio_app (t u : list efeito) :
  escritas_gpio (t ++ u) = escritas_gpio t ++ escritas_gpio u.
Proof.
  induction t as [|e t IH]; simpl; [reflexivity|].
  destruct e; simpl; rewrite IH; reflexivity.
Qed.

(** ** Acquisition and smoothing *)

(** The block transfer fills [n] consecutive slots starting at [k]. *)
Lemma dma_transferir_buffer (adc : nat -> Z) (l pre post : list Z) :
  fst (dma_transferir adc (length pre) (length l) (pre ++ l ++ post))
  = pre ++ map (fun j => u16 (adc j)) (seq (length pre) (length l)) ++ post.
Proof.
  revert pre; induction l as [|x l IH]; intros pre; simpl; [reflexivity|].
  rewrite (escrever_meio pre x _ (l ++ post)) by reflexivity.
  destruct (dma_transferir adc (S (length pre)) (length l)
              (pre ++ u16 (adc (length pre)) :: l ++ post)) as [b t] eqn:E.
  simpl.
  specialize (IH (pre ++ [u16 (adc (length pre))])).
  rewrite <- !app_assoc in IH. simpl in IH.
  rewrite length_app in IH. simpl in IH. rewrite Nat.add_1_r in IH.
  rewrite E in IH. simpl in IH. exact IH.
Qed.

Lemma dma_transferir_escritas (adc : nat -> Z) (n k : nat) (buf : list Z) :
  indices_escritos (snd (dma_transferir adc k n buf)) = map Z.of_nat (seq k n).
Proof.
  revert k buf; induction n as [|n IH]; intros k buf; simpl; [reflexivity|].
  specialize (IH (S k) (escrever buf (Z.of_nat k) (u16 (adc k)))).
  destruct (dma_transferir adc (S k) n _) as [b t]. simpl in *.
  now rewrite IH.
Qed.

Lemma dma_transferir_lidos (adc : nat -> Z) (n k : nat) (buf : list Z) :
  indices_lidos (snd (dma_transferir adc k n buf)) = [].
Proof.
  revert k buf; induction n as [|n IH]; intros k buf; simpl; [reflexivity|].
  specialize (IH (S k) (escrever buf (Z.of_nat k) (u16 (adc k)))).
  destruct (dma_transferir adc (S k) n _) as [b t]. simpl in *. exact IH.
Qed.

(** The smoothing loop rewrites the block [l] that follows [pre] with the
    recursive filter. *)
Lemma laco_suavizacao_buffer (l pre post : list Z) (s i : Z) :
  i = Z.of_nat (length pre) ->
  fst (laco_suavizacao (length l) i s (pre ++ l ++ post))
  = pre ++ suavizar_resto s l ++ post.
Proof.
  revert pre s i; induction l as [|x l IH]; intros pre s i Hi; simpl; [reflexivity|].
  rewrite (ler_meio pre x (l ++ post) i Hi).
  rewrite (escrever_meio pre x _ (l ++ post) i Hi).
  set (s' := suavizar_sinal_audio x s FATOR_SUAVIZACAO).
  specialize (IH (pre ++ [s']) s' (i + 1)).
  rewrite <- !app_assoc in IH. simpl in IH.
  destruct (laco_suavizacao (length l) (i + 1) s' (pre ++ s' :: l ++ post)) as [b t].
  simpl in *. apply IH. rewrite length_app. simpl. lia.
Qed.

Lemma laco_suavizacao_escritas (n : nat) (i s : Z) (buf : list Z) :
  indices_escritos (snd (laco_suavizacao n i s buf))
  = map (fun k => i + Z.of_nat k) (seq 0 n).
Proof.
  revert i s buf; induction n as [|n IH]; intros i s buf; simpl; [reflexivity|].
  set (s' := suavizar_sinal_audio (ler buf i) s FATOR_SUAVIZACAO).
  specialize (IH (i + 1) s' (escrever buf i s')).
  destruct (laco_suavizacao n (i + 1) s' (escrever buf i s')) as [b t].
  simpl in *. rewrite IH. f_equal; [lia|].
  rewrite <- seq_shift, map_map. apply map_ext. intros k. lia.
Qed.

Lemma suavizar_resto_nth (l : list Z) (s : Z) (i : nat) :
  (i < length l)%nat ->
  nth i (suavizar_resto s l) 0
  = suavizar_sinal_audio (nth i l 0) (nth i (s :: suavizar_resto s l) 0) FATOR_SUAVIZACAO.
Proof.
  revert s i; induction l as [|x l IH]; intros s i Hi; simpl in Hi; [lia|].
  destruct i as [|j]; [reflexivity|].
  change (nth j (suavizar_resto (suavizar_sinal_audio x s FATOR_SUAVIZACAO) l) 0
          = suavizar_sinal_audio (nth j l 0)
              (nth j (suavizar_sinal_audio x s FATOR_SUAVIZACAO
                      :: suavizar_resto (suavizar_sinal_audio x s FATOR_SUAVIZACAO) l) 0)
              FATOR_SUAVIZACAO).
  apply IH. lia.
Qed.

Lemma suavizar_resto_length (l : list Z) (s : Z) :
  length (suavizar_resto s l) = length l.
Proof.
  revert s; induction l as [|x l IH]; intros s; simpl; [reflexivity|]. now rewrite IH.
Qed.

Lemma suavizar_bloco_length (l : list Z) : length (suavizar_bloco l) = length l.
Proof.
  destruct l as [|x l]; simpl; [reflexivity|]. now rewrite suavizar_resto_length.
Qed.

(** The recursive equations of the filter on a block. *)
Lemma suavizar_bloco_nth (l : list Z) (i : nat) :
  (1 <= i < length l)%nat ->
  nth i (suavizar_bloco l) 0
  = suavizar_sinal_audio (nth i l 0) (nth (i - 1) (suavizar_bloco l) 0) FATOR_SUAVIZACAO.
Proof.
  destruct l as [|x l]; simpl; [lia|]. intros Hi.
  destruct i as [|j]; [lia|]. simpl. rewrite Nat.sub_0_r.
  apply suavizar_resto_nth. lia.
Qed.

Lemma bloco_capturado_length (adc : nat -> Z) (n : Z) :
  length (bloco_capturado adc n) = Z.to_nat n.
Proof. unfold bloco_capturado. now rewrite length_map, length_seq. Qed.

Lemma processo_de_gravacao_total (clk_adc : Z) (adc : nat -> Z) (buf : list Z)
    (freq dur : Z) :
  snd (fst (processo_de_gravacao clk_adc adc buf freq dur)) = total_de_amostras freq dur.
Proof.
  unfold processo_de_gravacao, capturar_amostras_via_dma.
  destruct (dma_transferir _ _ _ _) as [b1 t1].
  destruct (laco_suavizacao _ _ _ _) as [b2 t2]. reflexivity.
Qed.

Lemma laco_suavizacao_bloco (bloco post : list Z) :
  fst (laco_suavizacao (length bloco - 1) 1 (ler (bloco ++ post) 0) (bloco ++ post))
  = suavizar_bloco bloco ++ post.
Proof.
  destruct bloco as [|x r]; [reflexivity|].
  change (ler ((x :: r) ++ post) 0) with x.
  replace (length (x :: r) - 1)%nat with (length r) by (simpl; lia).
  exact (laco_suavizacao_buffer r [x] post x 1 eq_refl).
Qed.

(** On return the first [n] slots hold the smoothed block and the rest
    of the buffer is as it was. *)
Lemma processo_de_gravacao_buffer (clk_adc : Z) (adc : nat -> Z) (buf : list Z)
    (freq dur : Z) :
  total_de_amostras freq dur <= Z.of_nat (length buf) ->
  fst (fst (processo_de_gravacao clk_adc adc buf freq dur))
  = suavizar_bloco (bloco_capturado adc (total_de_amostras freq dur))
    ++ skipn (Z.to_nat (total_de_amostras freq dur)) buf.
Proof.
  intros Hn. unfold processo_de_gravacao, capturar_amostras_via_dma.
  set (n := Z.to_nat (total_de_amostras freq dur)).
  assert (Hlen : length (firstn n buf) = n) by (apply firstn_length_le; lia).
  pose proof (dma_transferir_buffer adc (firstn n buf) [] (skipn n buf)) as HD.
  rewrite Hlen in HD. cbn [length app] in HD. rewrite firstn_skipn in HD.
  fold (bloco_capturado adc (total_de_amostras freq dur)) in HD.
  destruct (dma_transferir adc 0 n buf) as [b1 t1]. cbn [fst] in HD. subst b1.
  pose proof (laco_suavizacao_bloco (bloco_capturado adc (total_de_amostras freq dur))
                (skipn n buf)) as HL.
  rewrite bloco_capturado_length in HL. fold n in HL.
  destruct (laco_suavizacao (n - 1) 1 _ _) as [b2 t2]. cbn [fst] in *. exact HL.
Qed.

Lemma bloco_capturado_nth (adc : nat -> Z) (n : Z) (i : nat) :
  (i < Z.to_nat n)%nat -> nth i (bloco_capturado adc n) 0 = u16 (adc i).
Proof.
  intros Hi. unfold bloco_capturado.
  rewrite (nth_indep _ 0 (u16 (adc 0%nat))) by (now rewrite length_map, length_seq).
  rewrite (map_nth (fun j => u16 (adc j)) (seq 0 (Z.to_nat n)) 0%nat i).
  now rewrite seq_nth.
Qed.

Lemma um_menos_fator : sub (of_Z 1) FATOR_SUAVIZACAO = literal 8 10.
Proof. vm_compute. reflexivity. Qed.

Lemma suavizacao_tabela : forallb suavizacao_confere (indices 4096) = true.
Proof. vm_compute. reflexivity. Qed.

(** For an input of 0 or 4095 and a 12-bit previous output, the filter
    returns the integer part of [0.2 * x + 0.8 * anterior]. *)
Lemma suavizar_onda_quadrada (x anterior : Z) :
  x = 0 \/ x = 4095 -> 0 <= anterior < 4096 ->
  suavizar_sinal_audio x anterior FATOR_SUAVIZACAO = ema_truncada x anterior.
Proof.
  intros Hx Ha.
  pose proof (forallb_indices suavizacao_confere 4096 anterior suavizacao_tabela Ha) as H.
  unfold suavizacao_confere in H. apply andb_true_iff in H. destruct H as [H0 H1].
  destruct Hx as [-> | ->]; apply Z.eqb_eq; assumption.
Qed.

Lemma ema_truncada_12_bits (x anterior : Z) :
  0 <= x < 4096 -> 0 <= anterior < 4096 -> 0 <= ema_truncada x anterior < 4096.
Proof.
  intros Hx Ha. unfold ema_truncada. split.
  - apply Z.div_pos; lia.
  - apply Z.div_lt_upper_bound; lia.
Qed.

(** The smoothing of a full-scale square wave is the truncated recursion
    of the specification, sample for sample. *)
Lemma suavizar_bloco_onda_quadrada (l : list Z) :
  Forall (fun x => x = 0 \/ x = 4095) l -> suavizar_bloco l = ema_bloco l.
Proof.
  assert (Hr : forall r anterior,
             0 <= anterior < 4096 -> Forall (fun x => x = 0 \/ x = 4095) r ->
             suavizar_resto anterior r = ema_resto anterior r).
  { induction r as [|x r IH]; intros anterior Ha Hf; [reflexivity|].
    inversion Hf as [|? ? Hx Hf']; subst. cbn [suavizar_resto ema_resto].
    rewrite (suavizar_onda_quadrada x anterior Hx Ha).
    f_equal. apply IH; [|exact Hf'].
    apply ema_truncada_12_bits; [destruct Hx; lia|exact Ha]. }
  intros Hf. destruct l as [|x r]; [reflexivity|].
  inversion Hf as [|? ? Hx Hf']; subst. cbn [suavizar_bloco ema_bloco].
  f_equal. apply Hr; [destruct Hx; lia|exact Hf'].
Qed.

(** C1, as stated, fails on the example of the specification: with the
    readings 4095, 0, 4095, 0 the third output of the smoothing pass is
    not the rounded value of [0.2 * 4095 + 0.8 * out[1]]. *)
Lemma C1_contraexemplo :
  let saida := fst (fst (processo_de_gravacao 48000000 adc_exemplo buffer_inicial 4 1)) in
  ler saida 2 <> ema_arredondada (u16 (adc_exemplo 2)) (ler saida 1).
Proof. vm_compute. discriminate. Qed.

(** C1, amended: for every non-empty captured block (in a buffer of the
    declared capacity), slot 0 is left as captured and every later slot holds
    [suavizar_sinal_audio] of its captured value and of the preceding
    smoothed output, that is the single-precision value of
    [0.2f * in[i] + 0.8f * out[i-1]] converted to [uint16_t] by
    truncation (not by rounding).  On a full-scale square wave (inputs 0
    and 4095, 12-bit outputs) that value is exactly the integer part of
    [0.2 * in[i] + 0.8 * out[i-1]].  For the readings 4095, 0, 4095, 0
    the outputs are 4095, 3276, 3439, 2751, where 3439 is the truncation
    of 3439.8 and 2751 the truncation of 2751.2. *)
Theorem C1_suavizacao_recursiva_truncada
    (clk_adc : Z) (adc : nat -> Z) (buf : list Z) (freq dur : Z) :
  let n := total_de_amostras freq dur in
  let saida := fst (fst (processo_de_gravacao clk_adc adc buf freq dur)) in
  let entrada := fun i : Z => u16 (adc (Z.to_nat i)) in
  0 < n -> TAMANHO_BUFFER_AUDIO <= Z.of_nat (length buf) ->
  ler saida 0 = entrada 0
  /\ (forall i, 1 <= i < n ->
        ler saida i = suavizar_sinal_audio (entrada i) (ler saida (i - 1)) FATOR_SUAVIZACAO)
  /\ (forall x anterior,
        suavizar_sinal_audio x anterior FATOR_SUAVIZACAO
        = u16 (trunc (add (mul (literal 2 10) (of_Z x))
                          (mul (literal 8 10) (of_Z anterior)))))
  /\ (forall x anterior,
        x = 0 \/ x = 4095 -> 0 <= anterior < 4096 ->
        suavizar_sinal_audio x anterior FATOR_SUAVIZACAO = ema_truncada x anterior)
  /\ firstn 4 (fst (fst (processo_de_gravacao clk_adc adc_exemplo buffer_inicial 4 1)))
     = [4095; 3276; 3439; 2751]
  /\ ema_truncada 4095 3276 = 3439 /\ ema_arredondada 4095 3276 = 3440
  /\ ema_truncada 0 3439 = 2751.
Proof.
  intros n saida entrada Hpos Hbuf.
  assert (Hfit : n <= Z.of_nat (length buf))
    by (pose proof (total_de_amostras_limites freq dur); lia).
  assert (Hs : saida = suavizar_bloco (bloco_capturado adc n) ++ skipn (Z.to_nat n) buf)
    by (apply processo_de_gravacao_buffer; exact Hfit).
  assert (Hle : forall i, 0 <= i < n ->
                  ler saida i = nth (Z.to_nat i) (suavizar_bloco (bloco_capturado adc n)) 0).
  { intros i Hi. rewrite Hs. unfold ler. apply app_nth1.
    rewrite suavizar_bloco_length, bloco_capturado_length. lia. }
  split; [|split; [|split; [|split; [|split]]]].
  - rewrite Hle by lia. change (Z.to_nat 0) with 0%nat.
    pose proof (bloco_capturado_nth adc n 0) as H0.
    destruct (bloco_capturado adc n) as [|x r] eqn:E.
    + pose proof (bloco_capturado_length adc n) as HL. rewrite E in HL. simpl in HL. lia.
    + simpl in *. apply H0. lia.
  - intros i Hi. rewrite !Hle by lia.
    rewrite suavizar_bloco_nth by (rewrite bloco_capturado_length; lia).
    rewrite bloco_capturado_nth by lia.
    replace (Z.to_nat (i - 1)) with (Z.to_nat i - 1)%nat by lia. reflexivity.
  - intros x anterior. unfold suavizar_sinal_audio. rewrite um_menos_fator. reflexivity.
  - exact suavizar_onda_quadrada.
  - rewrite processo_de_gravacao_buffer by (vm_compute; discriminate).
    vm_compute. reflexivity.
  - vm_compute. repeat split; reflexivity.
Qed.

(** The amended C1 at a capture of four samples into the buffer of the
    project. *)
Lemma C1_suavizacao_recursiva_truncada_witness :
  0 < total_de_amostras 4 1
  /\ TAMANHO_BUFFER_AUDIO <= Z.of_nat (length buffer_inicial)
  /\ ler (fst (fst (processo_de_gravacao 48000000 adc_exemplo buffer_inicial 4 1))) 0
     = u16 (adc_exemplo (Z.to_nat 0)).
Proof.
  assert (H1 : 0 < total_de_amostras 4 1) by (vm_compute; reflexivity).
  assert (H2 : TAMANHO_BUFFER_AUDIO <= Z.of_nat (length buffer_inicial))
    by (unfold buffer_inicial; rewrite repeat_length; vm_compute; discriminate).
  split; [exact H1|]. split; [exact H2|].
  exact (proj1 (C1_suavizacao_recursiva_truncada 48000000 adc_exemplo
                  buffer_inicial 4 1 H1 H2)).
Defined.

(** ** The stores of the capture *)

(** Every store of the capture and of the smoothing pass is below the
    returned count. *)
Lemma processo_de_gravacao_escritas (clk_adc : Z) (adc : nat -> Z) (buf : list Z)
    (freq dur : Z) :
  Forall (fun i => 0 <= i < snd (fst (processo_de_gravacao clk_adc adc buf freq dur)))
         (indices_escritos (snd (processo_de_gravacao clk_adc adc buf freq dur))).
Proof.
  rewrite processo_de_gravacao_total.
  pose proof (total_de_amostras_limites freq dur) as Hn.
  unfold processo_de_gravacao, capturar_amostras_via_dma.
  set (n := total_de_amostras freq dur) in *.
  pose proof (dma_transferir_escritas adc (Z.to_nat n) 0 buf) as HD.
  destruct (dma_transferir adc 0 (Z.to_nat n) buf) as [b1 t1]. cbn [snd] in HD.
  pose proof (laco_suavizacao_escritas (Z.to_nat n - 1) 1 (ler b1 0) b1) as HL.
  destruct (laco_suavizacao (Z.to_nat n - 1) 1 (ler b1 0) b1) as [b2 t2]. cbn [snd] in *.
  cbn [indices_escritos app]. rewrite !indices_escritos_app. cbn [indices_escritos app].
  rewrite HD, HL, app_nil_r.
  apply Forall_app; split; apply Forall_forall; intros i Hi;
    apply in_map_iff in Hi; destruct Hi as [k [<- Hk]]; apply in_seq in Hk; lia.
Qed.

(** The slots at and above the returned count keep their values. *)
Lemma processo_de_gravacao_resto (clk_adc : Z) (adc : nat -> Z) (buf : list Z)
    (freq dur : Z) (i : Z) :
  total_de_amostras freq dur <= Z.of_nat (length buf) ->
  total_de_amostras freq dur <= i ->
  ler (fst (fst (processo_de_gravacao clk_adc adc buf freq dur))) i = ler buf i.
Proof.
  intros Hfit Hi. rewrite processo_de_gravacao_buffer by exact Hfit.
  pose proof (total_de_amostras_limites freq dur) as Hn.
  set (n := total_de_amostras freq dur) in *.
  unfold ler. rewrite app_nth2; rewrite suavizar_bloco_length, bloco_capturado_length; [|lia].
  rewrite <- (firstn_skipn (Z.to_nat n) buf) at 2.
  rewrite app_nth2; rewrite firstn_length_le by lia; [reflexivity|lia].
Qed.

(** C3 at [freq_amostragem = 65536], [duracao_seg = 65536]: the requested
    count [2^32] exceeds the capacity, the 32-bit product is 0 and the
    capture returns 0, not the capacity; nothing is stored.  Likewise at
    the sample rate of the project with a duration of 89479 s the
    requested count exceeds the capacity and the capture returns 24704. *)
Theorem C3_produto_transborda (clk_adc : Z) (adc : nat -> Z) (buf : list Z) :
  65536 * 65536 > TAMANHO_BUFFER_AUDIO
  /\ snd (fst (processo_de_gravacao clk_adc adc buf 65536 65536)) = 0
  /\ snd (fst (processo_de_gravacao clk_adc adc buf 65536 65536)) <> TAMANHO_BUFFER_AUDIO
  /\ fst (fst (processo_de_gravacao clk_adc adc buf 65536 65536)) = buf
  /\ indices_escritos (snd (processo_de_gravacao clk_adc adc buf 65536 65536)) = []
  /\ TAXA_AMOSTRAGEM * 89479 > TAMANHO_BUFFER_AUDIO
  /\ snd (fst (processo_de_gravacao clk_adc adc buf TAXA_AMOSTRAGEM 89479)) = 24704.
Proof.
  split; [reflexivity|]. split; [reflexivity|]. split; [discriminate|].
  split; [reflexivity|]. split; [reflexivity|]. split; [reflexivity|].
  rewrite processo_de_gravacao_total. reflexivity.
Qed.

(** ** Playback *)

Lemma amostra_amplificada_limites (amostra : Z) : 0 <= amostra_amplificada amostra <= 4095.
Proof.
  unfold amostra_amplificada.
  pose proof (u32_range (trunc (amostra_escalada amostra))) as H.
  destruct (u32 (trunc (amostra_escalada amostra)) >? 4095) eqn:E; [lia|].
  rewrite Z.gtb_ltb in E; apply Z.ltb_ge in E. lia.
Qed.

Lemma amostra_amplificada_min (amostra : Z) :
  amostra_amplificada amostra = Z.min (u32 (trunc (amostra_escalada amostra))) 4095.
Proof.
  unfold amostra_amplificada.
  destruct (u32 (trunc (amostra_escalada amostra)) >? 4095) eqn:E.
  - apply Z.gtb_lt in E. lia.
  - rewrite Z.gtb_ltb in E; apply Z.ltb_ge in E. lia.
Qed.

Lemma valor_max_pwm_limites (clk_sys freq : Z) : 1 <= valor_max_pwm clk_sys freq < 2 ^ 32.
Proof.
  unfold valor_max_pwm. pose proof (u32_range (clk_sys / freq - 1)) as H.
  destruct (u32 (clk_sys / freq - 1) =? 0) eqn:E; [lia|].
  apply Z.eqb_neq in E. lia.
Qed.

Lemma nivel_pwm_limites (amostra max_pwm : Z) :
  0 <= max_pwm -> 0 <= nivel_pwm amostra max_pwm <= max_pwm.
Proof.
  intros Hm. unfold nivel_pwm.
  pose proof (amostra_amplificada_limites amostra) as Ha.
  set (a := amostra_amplificada amostra) in *.
  pose proof (u32_range (a * max_pwm)) as Hu.
  assert (Hle : u32 (a * max_pwm) <= a * max_pwm)
    by (unfold u32; apply Z.mod_le; nia).
  split; [apply Z.div_pos; lia|].
  apply Z.div_le_upper_bound; nia.
Qed.

Lemma nivel_pwm_exato (amostra max_pwm : Z) :
  0 <= max_pwm -> amostra_amplificada amostra * max_pwm < 2 ^ 32 ->
  nivel_pwm amostra max_pwm = amostra_amplificada amostra * max_pwm / 4095.
Proof.
  intros Hm Hp. unfold nivel_pwm. pose proof (amostra_amplificada_limites amostra).
  rewrite u32_small by nia. reflexivity.
Qed.

Lemma escala_tabela : forallb escala_confere (indices 4096) = true.
Proof. vm_compute. reflexivity. Qed.

(** On the 12-bit range the single-precision product, truncated, is the
    integer part of the exact product. *)
Lemma amostra_escalada_exata (amostra : Z) :
  0 <= amostra < 4096 -> u32 (trunc (amostra_escalada amostra)) = 17 * amostra / 10.
Proof.
  intros H. apply Z.eqb_eq. exact (forallb_indices escala_confere 4096 amostra escala_tabela H).
Qed.

(** With the sample rate of the project and a system clock that is at
    least that rate, the PWM range is at most 89477 and the product of line
    280 fits 32 bits. *)
Lemma valor_max_pwm_taxa_do_projeto (clk_sys : Z) :
  TAXA_AMOSTRAGEM <= clk_sys < 2 ^ 32 ->
  1 <= valor_max_pwm clk_sys TAXA_AMOSTRAGEM <= 89477.
Proof.
  unfold valor_max_pwm, TAXA_AMOSTRAGEM. intros H.
  assert (H1 : 1 <= clk_sys / 48000) by (apply Z.div_le_lower_bound; lia).
  assert (H2 : clk_sys / 48000 < 89479) by (apply Z.div_lt_upper_bound; lia).
  rewrite u32_small by lia.
  destruct (clk_sys / 48000 - 1 =? 0) eqn:E; [lia|].
  apply Z.eqb_neq in E. lia.
Qed.

Lemma nivel_pwm_taxa_do_projeto (clk_sys amostra : Z) :
  TAXA_AMOSTRAGEM <= clk_sys < 2 ^ 32 ->
  nivel_pwm amostra (valor_max_pwm clk_sys TAXA_AMOSTRAGEM)
  = amostra_amplificada amostra * valor_max_pwm clk_sys TAXA_AMOSTRAGEM / 4095.
Proof.
  intros H. pose proof (valor_max_pwm_taxa_do_projeto clk_sys H) as Hm.
  pose proof (amostra_amplificada_limites amostra) as Ha.
  apply nivel_pwm_exato; nia.
Qed.

(** The two PWM writes of every playback step, then the final silence. *)
Lemma processo_de_reproducao_niveis (clk_sys pino_a pino_b : Z) (dados : list Z)
    (n freq : Z) :
  niveis_pwm (processo_de_reproducao clk_sys pino_a pino_b dados n freq)
  = flat_map (fun i => let nivel := nivel_pwm (ler dados i) (valor_max_pwm clk_sys freq) in
                       [(pino_a, nivel); (pino_b, nivel)])
             (indices n)
    ++ [(pino_a, 0); (pino_b, 0)].
Proof.
  unfold processo_de_reproducao. rewrite niveis_pwm_app. f_equal.
  induction (indices n) as [|i l IH]; [reflexivity|].
  cbn [flat_map]. rewrite niveis_pwm_app, IH. reflexivity.
Qed.

(** C4, as stated, fails on its own figure: the gain-scaled value of the
    raw sample 4095 is not 6961.65. *)
Lemma C4_contraexemplo : ~ vale (amostra_escalada 4095) 696165 100.
Proof. vm_compute. discriminate. Qed.

(** C4, amended: for every sample the gain-scaled value is saturated at
    4095 (the minimum of the truncated product and 4095, no wrap-around;
    for a 12-bit sample the minimum of the integer part of
    [1.7 * amostra] and 4095); the raw sample 4095 scales to 6961.5, is
    truncated to 6961 and clips to 4095; the level is the 32-bit value of
    [clipped * pwm_max] divided by 4095, which is
    [clipped * pwm_max / 4095] whenever that product fits 32 bits, as it
    does at the sample rate of the project for every system clock from
    48 kHz up; and every level that playback writes is between 0 and
    [pwm_max]. *)
Theorem C4_saturacao_e_nivel (clk_sys pino_a pino_b : Z) (dados : list Z)
    (n freq amostra : Z) :
  let max_pwm := valor_max_pwm clk_sys freq in
  amostra_amplificada amostra = Z.min (u32 (trunc (amostra_escalada amostra))) 4095
  /\ amostra_amplificada amostra <= 4095
  /\ (0 <= amostra < 4096 -> amostra_amplificada amostra = Z.min (17 * amostra / 10) 4095)
  /\ vale (amostra_escalada 4095) 13923 2
  /\ trunc (amostra_escalada 4095) = 6961
  /\ amostra_amplificada 4095 = 4095
  /\ nivel_pwm amostra max_pwm = u32 (amostra_amplificada amostra * max_pwm) / 4095
  /\ (amostra_amplificada amostra * max_pwm < 2 ^ 32 ->
      nivel_pwm amostra max_pwm = amostra_amplificada amostra * max_pwm / 4095)
  /\ (TAXA_AMOSTRAGEM <= clk_sys < 2 ^ 32 ->
      nivel_pwm amostra (valor_max_pwm clk_sys TAXA_AMOSTRAGEM)
      = amostra_amplificada amostra * valor_max_pwm clk_sys TAXA_AMOSTRAGEM / 4095)
  /\ 0 <= nivel_pwm amostra max_pwm <= max_pwm
  /\ Forall (fun pn => 0 <= snd pn <= max_pwm)
            (niveis_pwm (processo_de_reproducao clk_sys pino_a pino_b dados n freq)).
Proof.
  intros max_pwm.
  pose proof (valor_max_pwm_limites clk_sys freq) as Hm. fold max_pwm in Hm.
  split; [apply amostra_amplificada_min|].
  split; [apply amostra_amplificada_limites|].
  split; [intros H; now rewrite amostra_amplificada_min, amostra_escalada_exata|].
  split; [vm_compute; reflexivity|].
  split; [vm_compute; reflexivity|].
  split; [vm_compute; reflexivity|].
  split; [reflexivity|].
  split; [intros Hp; apply nivel_pwm_exato; [lia|exact Hp]|].
  split; [intros Hc; apply nivel_pwm_taxa_do_projeto; exact Hc|].
  split; [apply nivel_pwm_limites; lia|].
  rewrite processo_de_reproducao_niveis. fold max_pwm.
  apply Forall_app; split.
  - apply Forall_flat_map. apply Forall_forall. intros i _.
    pose proof (nivel_pwm_limites (ler dados i) max_pwm) as Hn.
    repeat constructor; cbn [snd]; lia.
  - repeat constructor; cbn [snd]; lia.
Qed.

(** The amended C4 at the raw sample 4095, with a system clock of 125 MHz
    and the sample rate of the project. *)
Lemma C4_saturacao_e_nivel_witness :
  0 <= 4095 < 4096
  /\ amostra_amplificada 4095 = Z.min (17 * 4095 / 10) 4095
  /\ amostra_amplificada 4095 * valor_max_pwm 125000000 TAXA_AMOSTRAGEM < 2 ^ 32
  /\ nivel_pwm 4095 (valor_max_pwm 125000000 TAXA_AMOSTRAGEM)
     = amostra_amplificada 4095 * valor_max_pwm 125000000 TAXA_AMOSTRAGEM / 4095.
Proof.
  assert (H1 : 0 <= 4095 < 4096) by lia.
  assert (H2 : amostra_amplificada 4095 * valor_max_pwm 125000000 TAXA_AMOSTRAGEM < 2 ^ 32)
    by (vm_compute; reflexivity).
  pose proof (C4_saturacao_e_nivel 125000000 PINO_BUZZER_1 PINO_BUZZER_2 []
                0 TAXA_AMOSTRAGEM 4095) as (_ & _ & Ha & _ & _ & _ & _ & Hb & _).
  split; [exact H1|]. split; [exact (Ha H1)|]. split; [exact H2|exact (Hb H2)].
Defined.

(** C7: playback writes, for every sample in order, one level to the
    first pin and the same level to the second pin, and after the last
    sample writes level 0 to both; these are its only PWM writes, so the
    trace ends with the two zero writes; with [n_amostras = 0] the whole
    trace is the two zero writes. *)
Theorem C7_reproducao_termina_em_silencio (clk_sys pino_a pino_b : Z)
    (dados : list Z) (n freq : Z) :
  let t := processo_de_reproducao clk_sys pino_a pino_b dados n freq in
  niveis_pwm t
  = flat_map (fun i => let nivel := nivel_pwm (ler dados i) (valor_max_pwm clk_sys freq) in
                       [(pino_a, nivel); (pino_b, nivel)])
             (indices n)
    ++ [(pino_a, 0); (pino_b, 0)]
  /\ skipn (length t - 2) t = [PwmSetGpioLevel pino_a 0; PwmSetGpioLevel pino_b 0]
  /\ indices_lidos t = indices n
  /\ processo_de_reproducao clk_sys pino_a pino_b dados 0 freq
     = [PwmSetGpioLevel pino_a 0; PwmSetGpioLevel pino_b 0].
Proof.
  intros t. split; [apply processo_de_reproducao_niveis|].
  split; [|split; [|reflexivity]].
  - unfold t, processo_de_reproducao. rewrite length_app. cbn [length].
    rewrite Nat.add_sub. rewrite skipn_app, skipn_all, Nat.sub_diag. reflexivity.
  - unfold t, processo_de_reproducao. rewrite indices_lidos_app. cbn [indices_lidos].
    rewrite app_nil_r.
    induction (indices n) as [|i l IH]; [reflexivity|].
    cbn [flat_map]. rewrite indices_lidos_app, IH. reflexivity.
Qed.

(** ** Waveform rendering *)

Lemma in_faixa (lo hi y : Z) : lo <= y <= hi -> In y (faixa lo hi).
Proof.
  intros H. unfold faixa. apply in_map_iff.
  exists (Z.to_nat (y - lo)). split; [lia|]. apply in_seq. lia.
Qed.

Lemma y_final_limites (amostra : Z) : y_offset <= y_final amostra < DISPLAY_HEIGHT.
Proof.
  unfold y_final.
  set (y := y_centro - _).
  assert (Hc : y_offset = 12 /\ DISPLAY_HEIGHT = 64) by (split; reflexivity).
  destruct Hc as [-> ->].
  destruct (y <? 12) eqn:E1.
  - cbn. lia.
  - apply Z.ltb_ge in E1. destruct (y >=? 64) eqn:E2; [lia|].
    rewrite Z.geb_leb in E2. apply Z.leb_gt in E2. lia.
Qed.

Lemma indices_lidos_pixels (x : Z) (ys : list Z) :
  indices_lidos (map (fun y => SetPixel x y true) ys) = [].
Proof. induction ys as [|y ys IH]; [reflexivity|exact IH]. Qed.

Lemma desenhar_coluna_lidos (dados : list Z) (n x : Z) :
  indices_lidos (desenhar_coluna dados n x) = [indice_amostra n x].
Proof.
  unfold desenhar_coluna. cbn [indices_lidos].
  destruct (_ >? _); now rewrite indices_lidos_pixels.
Qed.

(** The renderer reads one sample per column, the one at
    [indice_amostra]. *)
Lemma mostrar_waveform_display_lidos (dados : list Z) (n : Z) :
  indices_lidos (mostrar_waveform_display dados n)
  = map (indice_amostra n) (indices (colunas_a_desenhar n)).
Proof.
  unfold mostrar_waveform_display. rewrite !indices_lidos_app.
  cbn [indices_lidos app]. rewrite app_nil_r.
  induction (indices (colunas_a_desenhar n)) as [|x l IH]; [reflexivity|].
  cbn [flat_map map]. rewrite indices_lidos_app, desenhar_coluna_lidos, IH. reflexivity.
Qed.

(** Where the [size_t] product does not wrap, [indice_amostra] is the
    decimation index. *)
Lemma indice_amostra_exato (n x : Z) :
  0 <= n -> 127 * n < 2 ^ 32 -> 0 <= x < DISPLAY_WIDTH ->
  indice_amostra n x = if DISPLAY_WIDTH <? n then x * n / DISPLAY_WIDTH else x.
Proof.
  intros Hn Hp Hx. unfold indice_amostra. rewrite Z.gtb_ltb.
  destruct (DISPLAY_WIDTH <? n) eqn:E; [|reflexivity].
  unfold DISPLAY_WIDTH in *. rewrite u32_small by nia. reflexivity.
Qed.

(** C6: for every sample count up to the capacity of the buffer, the
    renderer reads one sample per displayed column and nothing else: for
    column [x] the sample at index [x * count / 128] when the count
    exceeds 128, and the sample at index [x] when it does not.  For
    [count = 256] column [x] reads index [2 * x]. *)
Theorem C6_decimacao_por_indice (dados : list Z) (n : Z) :
  0 <= n <= TAMANHO_BUFFER_AUDIO ->
  indices_lidos (mostrar_waveform_display dados n)
  = map (fun x => if DISPLAY_WIDTH <? n then x * n / DISPLAY_WIDTH else x)
        (indices (Z.min n DISPLAY_WIDTH))
  /\ indices_lidos (mostrar_waveform_display dados 256)
     = map (fun x => 2 * x) (indices DISPLAY_WIDTH).
Proof.
  intros Hn. rewrite !mostrar_waveform_display_lidos. split.
  - replace (colunas_a_desenhar n) with (Z.min n DISPLAY_WIDTH).
    2:{ unfold colunas_a_desenhar. destruct (n <? DISPLAY_WIDTH) eqn:E.
        - apply Z.ltb_lt in E. lia.
        - apply Z.ltb_ge in E. lia. }
    apply map_ext_in. intros x Hx. apply in_indices in Hx.
    apply indice_amostra_exato; unfold TAMANHO_BUFFER_AUDIO, TAXA_AMOSTRAGEM,
      DURACAO_GRAVACAO_S in Hn; lia.
  - change (colunas_a_desenhar 256) with DISPLAY_WIDTH.
    apply map_ext_in. intros x Hx. apply in_indices in Hx.
    rewrite indice_amostra_exato by lia.
    unfold DISPLAY_WIDTH. change (128 <? 256) with true. cbv iota.
    replace (x * 256) with (2 * x * 128) by lia. apply Z.div_mul. lia.
Qed.

(** C6 at a count of 256 samples. *)
Lemma C6_decimacao_por_indice_witness :
  0 <= 256 <= TAMANHO_BUFFER_AUDIO
  /\ indices_lidos (mostrar_waveform_display [] 256)
     = map (fun x => if DISPLAY_WIDTH <? 256 then x * 256 / DISPLAY_WIDTH else x)
           (indices (Z.min 256 DISPLAY_WIDTH)).
Proof.
  assert (H : 0 <= 256 <= TAMANHO_BUFFER_AUDIO) by (vm_compute; split; discriminate).
  split; [exact H|].
  exact (proj1 (C6_decimacao_por_indice [] 256 H)).
Defined.

Lemma pixels_coluna (x : Z) (ys : list Z) :
  pixels (map (fun y => SetPixel x y true) ys) = map (fun y => (x, y)) ys.
Proof. induction ys as [|y ys IH]; [reflexivity|]. cbn. now rewrite IH. Qed.

(** Every drawn column lights its pixel on the midline. *)
Lemma desenhar_coluna_eixo (dados : list Z) (n x : Z) :
  In (x, y_centro) (pixels (desenhar_coluna dados n x)).
Proof.
  unfold desenhar_coluna. cbn [pixels].
  pose proof (y_final_limites (ler dados (indice_amostra n x))) as Hy.
  set (yf := y_final _) in *.
  destruct (yf >? y_centro) eqn:E; rewrite pixels_coluna; apply in_map; apply in_faixa.
  - apply Z.gtb_lt in E. lia.
  - rewrite Z.gtb_ltb in E; apply Z.ltb_ge in E. lia.
Qed.

(** C8, as stated, fails: with [count = 0] no pixel of the midline is
    set. *)
Lemma C8_contraexemplo :
  ~ exists x, In (x, y_centro) (pixels (mostrar_waveform_display [] 0)).
Proof. intros [x H]. exact H. Qed.

(** C8, amended: a render call with [count = 0] does not fail; it clears
    the screen buffer, draws the caption and sends the buffer to the
    display, and sets no pixel at all.  main.c has no axis of its own:
    the midline is lit only as the base of every drawn column, one pixel
    per column, when the count is positive. *)
Theorem C8_render_sem_amostras (dados : list Z) (n x : Z) :
  mostrar_waveform_display dados 0
  = [MemsetTela; DrawString 10 0 "Onda capturada"; RenderOnDisplay]
  /\ pixels (mostrar_waveform_display dados 0) = []
  /\ (0 <= x < colunas_a_desenhar n ->
      In (x, y_centro) (pixels (mostrar_waveform_display dados n))).
Proof.
  split; [reflexivity|]. split; [reflexivity|].
  intros Hx. unfold mostrar_waveform_display. rewrite !pixels_app.
  apply in_or_app. right. apply in_or_app. left.
  apply in_indices in Hx. revert Hx.
  induction (indices (colunas_a_desenhar n)) as [|c l IH]; [intros []|].
  intros [->|Hx]; cbn [flat_map]; rewrite pixels_app; apply in_or_app.
  - left. apply desenhar_coluna_eixo.
  - right. apply IH. exact Hx.
Qed.

(** The amended C8 at a block of four mid-scale samples: column 0 lights
    its midline pixel. *)
Lemma C8_render_sem_amostras_witness :
  0 <= 0 < colunas_a_desenhar 4
  /\ In (0, y_centro) (pixels (mostrar_waveform_display [2048; 2048; 2048; 2048] 4)).
Proof.
  assert (H : 0 <= 0 < colunas_a_desenhar 4) by (vm_compute; split; [discriminate|reflexivity]).
  split; [exact H|].
  exact (proj2 (proj2 (C8_render_sem_amostras [2048; 2048; 2048; 2048] 4 0)) H).
Defined.

(** ** The button interrupt handler *)

Ltac reduz_pinos :=
  unfold tratador_interrupcao_botao, fora_da_janela, pino_de, ultimo_de, flag_de, aceitar;
  repeat first
    [ progress change (PINO_BOTAO_GRAVAR =? PINO_BOTAO_GRAVAR) with true
    | progress change (PINO_BOTAO_REPRODUZIR =? PINO_BOTAO_REPRODUZIR) with true
    | progress change (PINO_BOTAO_GRAVAR =? PINO_BOTAO_REPRODUZIR) with false
    | progress change (PINO_BOTAO_REPRODUZIR =? PINO_BOTAO_GRAVAR) with false ];
  cbv beta iota.

(** The handler on an edge of button [k]: accepted or left alone. *)
Lemma tratador_por_botao (k : botao) (agora : Z) (b : botoes) :
  tratador_interrupcao_botao (pino_de k) agora b
  = if fora_da_janela k agora b then aceitar k agora b else b.
Proof.
  destruct k; reduz_pinos;
    match goal with |- context [?x >? ?y] => destruct (x >? y) end; reflexivity.
Qed.

Lemma fora_da_janela_spec (k : botao) (agora : Z) (b : botoes) :
  fora_da_janela k agora b = true
  <-> decorrido agora (ultimo_de k b) > TEMPO_DEBOUNCE_BOTAO_MS.
Proof.
  unfold fora_da_janela. rewrite Z.gtb_ltb, Z.ltb_lt. lia.
Qed.

Lemma decorrido_sem_volta (agora ultimo : Z) :
  0 <= ultimo <= agora -> agora < 2 ^ 32 -> decorrido agora ultimo = agora - ultimo.
Proof. intros H1 H2. unfold decorrido. apply u32_small. lia. Qed.

(** The handler never clears a flag. *)
Lemma tratador_preserva_flag (k : botao) (pino agora : Z) (b : botoes) :
  flag_de k b = true -> flag_de k (tratador_interrupcao_botao pino agora b) = true.
Proof.
  intros H. unfold tratador_interrupcao_botao.
  destruct (pino =? PINO_BOTAO_GRAVAR), (pino =? PINO_BOTAO_REPRODUZIR);
    repeat match goal with |- context [?x >? ?y] => destruct (x >? y) end;
    destruct k; cbn in *; auto.
Qed.

Lemma tratar_bordas_preserva_flag (k : botao) (bordas : list (Z * Z)) (b : botoes) :
  flag_de k b = true -> flag_de k (tratar_bordas bordas b) = true.
Proof.
  revert b; induction bordas as [|[p t] l IH]; intros b H; [exact H|].
  cbn [tratar_bordas fold_left fst snd]. apply IH. now apply tratador_preserva_flag.
Qed.

Lemma tratar_bordas_cons (pino agora : Z) (l : list (Z * Z)) (b : botoes) :
  tratar_bordas ((pino, agora) :: l) b
  = tratar_bordas l (tratador_interrupcao_botao pino agora b).
Proof. reflexivity. Qed.

Lemma tratar_bordas_app (l1 l2 : list (Z * Z)) (b : botoes) :
  tratar_bordas (l1 ++ l2) b = tratar_bordas l2 (tratar_bordas l1 b).
Proof. unfold tratar_bordas. apply fold_left_app. Qed.

(** C5, as stated, fails: the record button is accepted at 1000 ms and
    the main loop consumes the flag; edges follow at 1150 ms and at
    1250 ms, 100 ms apart.  The first of the two is rejected (150 ms after
    the last accepted edge) and leaves the flag clear, the second is
    accepted (250 ms after it) and sets the flag: of two edges within the
    window it is not the first that sets the pending flag. *)
Lemma C5_contraexemplo :
  let b0 := limpar_flag_gravar
              (tratador_interrupcao_botao PINO_BOTAO_GRAVAR 1000 botoes_iniciais) in
  let b1 := tratador_interrupcao_botao PINO_BOTAO_GRAVAR 1150 b0 in
  let b2 := tratador_interrupcao_botao PINO_BOTAO_GRAVAR 1250 b1 in
  ultimo_acionamento_gravar b0 = 1000
  /\ decorrido 1250 1150 <= TEMPO_DEBOUNCE_BOTAO_MS
  /\ flag_botao_gravar_ativado b1 = false
  /\ flag_botao_gravar_ativado b2 = true.
Proof. vm_compute. repeat split; discriminate. Qed.

(** C5, amended: the debounce window is measured from the last accepted
    edge of the button, not from the previous edge.  An edge on button
    [k] at time [agora] is accepted iff the 32-bit difference
    [agora - last_accepted[k]] (the plain difference when the millisecond
    counter has not wrapped) exceeds 200.  An accepted edge sets the flag
    of [k], whatever the flag was, and records [agora]; a rejected edge
    changes nothing, so [last_accepted[k]] changes only on acceptance;
    the other button is never touched.  Hence of two edges on [k], the
    second at most 200 ms after the first, the second is discarded
    whenever the first was accepted, even if the main loop consumed the
    flag or the other button was pressed in between (after a rejected
    first edge the second may be accepted). *)
Theorem C5_debounce (k : botao) (b : botoes) (agora : Z) :
  let b' := tratador_interrupcao_botao (pino_de k) agora b in
  (decorrido agora (ultimo_de k b) > TEMPO_DEBOUNCE_BOTAO_MS ->
     b' = aceitar k agora b /\ flag_de k b' = true /\ ultimo_de k b' = agora)
  /\ (decorrido agora (ultimo_de k b) <= TEMPO_DEBOUNCE_BOTAO_MS -> b' = b)
  /\ (ultimo_de k b' <> ultimo_de k b ->
        decorrido agora (ultimo_de k b) > TEMPO_DEBOUNCE_BOTAO_MS)
  /\ (flag_de k b = false ->
        (flag_de k b' = true <-> decorrido agora (ultimo_de k b) > TEMPO_DEBOUNCE_BOTAO_MS))
  /\ (0 <= ultimo_de k b <= agora -> agora < 2 ^ 32 ->
        decorrido agora (ultimo_de k b) = agora - ultimo_de k b)
  /\ (forall (segunda : Z) (b1 : botoes),
        decorrido agora (ultimo_de k b) > TEMPO_DEBOUNCE_BOTAO_MS ->
        ultimo_de k b1 = ultimo_de k b' ->
        decorrido segunda agora <= TEMPO_DEBOUNCE_BOTAO_MS ->
        tratador_interrupcao_botao (pino_de k) segunda b1 = b1).
Proof.
  intros b'.
  assert (Hac : decorrido agora (ultimo_de k b) > TEMPO_DEBOUNCE_BOTAO_MS ->
                b' = aceitar k agora b).
  { intros H. unfold b'. rewrite tratador_por_botao.
    apply fora_da_janela_spec in H. now rewrite H. }
  assert (Hrej : decorrido agora (ultimo_de k b) <= TEMPO_DEBOUNCE_BOTAO_MS -> b' = b).
  { intros H. unfold b'. rewrite tratador_por_botao.
    destruct (fora_da_janela k agora b) eqn:E; [|reflexivity].
    apply fora_da_janela_spec in E. lia. }
  split; [|split; [exact Hrej|split; [|split; [|split]]]].
  - intros H. rewrite (Hac H). split; [reflexivity|]. destruct k; split; reflexivity.
  - intros Hd.
    destruct (Z_le_gt_dec (decorrido agora (ultimo_de k b)) TEMPO_DEBOUNCE_BOTAO_MS)
      as [Hle|Hgt]; [|exact Hgt].
    rewrite (Hrej Hle) in Hd. congruence.
  - intros Hf. split.
    + intros Ht.
      destruct (Z_le_gt_dec (decorrido agora (ultimo_de k b)) TEMPO_DEBOUNCE_BOTAO_MS)
        as [Hle|Hgt]; [|exact Hgt].
      rewrite (Hrej Hle) in Ht. congruence.
    + intros H. rewrite (Hac H). destruct k; reflexivity.
  - intros H1 H2. apply decorrido_sem_volta; assumption.
  - intros segunda b1 H Hu Hs. rewrite tratador_por_botao.
    destruct (fora_da_janela k segunda b1) eqn:E; [|reflexivity].
    apply fora_da_janela_spec in E. rewrite Hu, (Hac H) in E.
    replace (ultimo_de k (aceitar k agora b)) with agora in E by (destruct k; reflexivity).
    lia.
Qed.

(** The amended C5 at two edges on the record button, 1000 ms and
    1100 ms after boot: the first is accepted, the second is discarded
    although the main loop has consumed the flag in between. *)
Lemma C5_debounce_witness :
  decorrido 1000 (ultimo_de Gravar botoes_iniciais) > TEMPO_DEBOUNCE_BOTAO_MS
  /\ decorrido 1100 1000 <= TEMPO_DEBOUNCE_BOTAO_MS
  /\ tratador_interrupcao_botao (pino_de Gravar) 1100
       (limpar_flag_gravar (aceitar Gravar 1000 botoes_iniciais))
     = limpar_flag_gravar (aceitar Gravar 1000 botoes_iniciais).
Proof.
  assert (H1 : decorrido 1000 (ultimo_de Gravar botoes_iniciais) > TEMPO_DEBOUNCE_BOTAO_MS)
    by (vm_compute; reflexivity).
  assert (H2 : decorrido 1100 1000 <= TEMPO_DEBOUNCE_BOTAO_MS)
    by (vm_compute; discriminate).
  split; [exact H1|]. split; [exact H2|].
  exact (proj2 (proj2 (proj2 (proj2 (proj2
           (C5_debounce Gravar botoes_iniciais 1000)))))
           1100 (limpar_flag_gravar (aceitar Gravar 1000 botoes_iniciais))
           H1 eq_refl H2).
Defined.

(** C10: both last-accepted timestamps start at 0, so the first edge on a
    button, if it comes at most 200 ms after boot, fails the test
    [agora - 0 > 200] and is discarded: the handler leaves the initial
    state (no flag, timestamps 0) as it is. *)
Theorem C10_primeira_borda_descartada (k : botao) (agora : Z) :
  0 <= agora <= TEMPO_DEBOUNCE_BOTAO_MS ->
  ultimo_de k botoes_iniciais = 0
  /\ tratador_interrupcao_botao (pino_de k) agora botoes_iniciais = botoes_iniciais
  /\ flag_de k (tratador_interrupcao_botao (pino_de k) agora botoes_iniciais) = false.
Proof.
  intros H.
  assert (Hd : decorrido agora 0 = agora).
  { unfold decorrido. rewrite Z.sub_0_r. apply u32_small.
    unfold TEMPO_DEBOUNCE_BOTAO_MS in H. lia. }
  assert (Ht : tratador_interrupcao_botao (pino_de k) agora botoes_iniciais = botoes_iniciais).
  { rewrite tratador_por_botao.
    destruct (fora_da_janela k agora botoes_iniciais) eqn:E; [|reflexivity].
    apply fora_da_janela_spec in E.
    replace (ultimo_de k botoes_iniciais) with 0 in E by (destruct k; reflexivity).
    lia. }
  split; [destruct k; reflexivity|]. split; [exact Ht|].
  rewrite Ht. destruct k; reflexivity.
Qed.

(** C10 at an edge on the record button 150 ms after boot. *)
Lemma C10_primeira_borda_descartada_witness :
  0 <= 150 <= TEMPO_DEBOUNCE_BOTAO_MS
  /\ tratador_interrupcao_botao PINO_BOTAO_GRAVAR 150 botoes_iniciais = botoes_iniciais.
Proof.
  assert (H : 0 <= 150 <= TEMPO_DEBOUNCE_BOTAO_MS) by (vm_compute; split; discriminate).
  split; [exact H|].
  exact (proj1 (proj2 (C10_primeira_borda_descartada Gravar 150 H))).
Defined.

(** ** The main loop *)

Lemma app_cinco {A : Type} (a b c d e f : list A) :
  (a ++ b ++ c ++ d ++ e) ++ f = a ++ b ++ c ++ d ++ e ++ f.
Proof. now rewrite <- !app_assoc. Qed.

Lemma app_quatro {A : Type} (a b c d e : list A) :
  (a ++ b ++ c ++ d) ++ e = a ++ b ++ c ++ d ++ e.
Proof. now rewrite <- !app_assoc. Qed.

Section PropriedadesDoLaco.

Variables clk_sys clk_adc : Z.

Lemma iteracao_espera_parado (amb : ambiente) (s : sistema) :
  estado_do_sistema s = MODO_ESPERA ->
  flag_botao_gravar_ativado (botoes_do_sistema s) = false ->
  iteracao clk_sys clk_adc amb s = dormir s.
Proof. intros He Hf. unfold iteracao. now rewrite He, Hf. Qed.

Lemma iteracao_espera_grava (amb : ambiente) (s : sistema) :
  estado_do_sistema s = MODO_ESPERA ->
  flag_botao_gravar_ativado (botoes_do_sistema s) = true ->
  iteracao clk_sys clk_adc amb s = dormir (ramo_gravar clk_adc amb s).
Proof. intros He Hf. unfold iteracao. now rewrite He, Hf. Qed.

Lemma iteracao_aguardando_parado (amb : ambiente) (s : sistema) :
  estado_do_sistema s = MODO_AGUARDANDO_PLAYBACK ->
  flag_botao_reproduzir_ativado (botoes_do_sistema s) = false ->
  iteracao clk_sys clk_adc amb s = dormir s.
Proof. intros He Hf. unfold iteracao. now rewrite He, Hf. Qed.

Lemma iteracao_aguardando_reproduz (amb : ambiente) (s : sistema) :
  estado_do_sistema s = MODO_AGUARDANDO_PLAYBACK ->
  flag_botao_reproduzir_ativado (botoes_do_sistema s) = true ->
  iteracao clk_sys clk_adc amb s = dormir (ramo_reproduzir clk_sys amb s).
Proof. intros He Hf. unfold iteracao. now rewrite He, Hf. Qed.

(** The recording branch, field by field. *)
Lemma ramo_gravar_campos (amb : ambiente) (s : sistema) :
  let g := gravacao_de clk_adc amb s in
  let s1 := ramo_gravar clk_adc amb s in
  estado_do_sistema s1 = MODO_AGUARDANDO_PLAYBACK
  /\ botoes_do_sistema s1
     = tratar_bordas (bordas amb) (limpar_flag_gravar (botoes_do_sistema s))
  /\ total_amostras_capturadas s1 = snd (fst g)
  /\ buffer_de_amostras s1 = fst (fst g)
  /\ rastro s1 = rastro s ++ definir_cor_led true false false ++ snd g
                 ++ definir_cor_led false false false
                 ++ mostrar_waveform_display (fst (fst g)) (snd (fst g)).
Proof.
  intros g s1. unfold s1, g, ramo_gravar.
  cbn [estado_do_sistema botoes_do_sistema total_amostras_capturadas
       buffer_de_amostras rastro].
  repeat split.
Qed.

(** The play branch, field by field: whatever edges arrive during the
    playback, the record flag is false afterwards. *)
Lemma ramo_reproduzir_campos (amb : ambiente) (s : sistema) :
  let s2 := ramo_reproduzir clk_sys amb s in
  estado_do_sistema s2 = MODO_ESPERA
  /\ flag_botao_gravar_ativado (botoes_do_sistema s2) = false
  /\ total_amostras_capturadas s2 = total_amostras_capturadas s
  /\ buffer_de_amostras s2 = buffer_de_amostras s
  /\ rastro s2 = rastro s ++ definir_cor_led false true false ++ reproducao_de clk_sys s
                 ++ definir_cor_led false false false ++ apagar_tela.
Proof.
  intros s2. unfold s2, ramo_reproduzir.
  cbn [estado_do_sistema botoes_do_sistema total_amostras_capturadas
       buffer_de_amostras rastro limpar_flag_gravar flag_botao_gravar_ativado].
  repeat split.
Qed.

(** An iteration that plays. *)
Lemma iteracao_reproduz_campos (amb : ambiente) (s : sistema) :
  estado_do_sistema s = MODO_AGUARDANDO_PLAYBACK ->
  flag_botao_reproduzir_ativado (botoes_do_sistema s) = true ->
  let s2 := iteracao clk_sys clk_adc amb s in
  estado_do_sistema s2 = MODO_ESPERA
  /\ flag_botao_gravar_ativado (botoes_do_sistema s2) = false
  /\ rastro s2 = rastro s ++ definir_cor_led false true false
                 ++ reproducao_de clk_sys s
                 ++ definir_cor_led false false false ++ apagar_tela
                 ++ [SleepMs 10].
Proof.
  intros He Hr s2.
  assert (E : s2 = dormir (ramo_reproduzir clk_sys amb s))
    by (unfold s2; now apply iteracao_aguardando_reproduz).
  destruct (ramo_reproduzir_campos amb s) as (H1 & H2 & H3 & H4 & H5).
  rewrite E. unfold dormir.
  cbn [estado_do_sistema botoes_do_sistema total_amostras_capturadas
       buffer_de_amostras rastro].
  split; [exact H1|]. split; [exact H2|].
  rewrite H5. apply app_cinco.
Qed.

(** C2: (1) in [MODO_ESPERA] with only the play flag set, an iteration
    changes neither the state nor the flags and only sleeps: no GPIO
    write, no capture, no playback.  (2) With the record flag set it
    turns the LED red, captures and smooths, turns the LED off, draws the
    waveform and moves to [MODO_AGUARDANDO_PLAYBACK], once.  (3) There,
    with the play flag set, it turns the LED green, plays the captured
    block, turns the LED off, clears the display and returns to
    [MODO_ESPERA]; the record flag is false on return whatever button
    edges arrived during the playback, so the iteration that follows
    only sleeps and no recording is triggered.  (4) Without the play flag
    the loop stays in [MODO_AGUARDANDO_PLAYBACK] and only sleeps. *)
Theorem C2_ciclo_gravar_desenhar_reproduzir (s : sistema) (amb amb' : ambiente) :
  (estado_do_sistema s = MODO_ESPERA ->
   flag_botao_gravar_ativado (botoes_do_sistema s) = false ->
   flag_botao_reproduzir_ativado (botoes_do_sistema s) = true ->
   let s' := iteracao clk_sys clk_adc amb s in
   estado_do_sistema s' = MODO_ESPERA
   /\ botoes_do_sistema s' = botoes_do_sistema s
   /\ total_amostras_capturadas s' = total_amostras_capturadas s
   /\ buffer_de_amostras s' = buffer_de_amostras s
   /\ rastro s' = rastro s ++ [SleepMs 10]
   /\ escritas_gpio (rastro s') = escritas_gpio (rastro s))
  /\ (estado_do_sistema s = MODO_ESPERA ->
      flag_botao_gravar_ativado (botoes_do_sistema s) = true ->
      let g := gravacao_de clk_adc amb s in
      let s1 := iteracao clk_sys clk_adc amb s in
      estado_do_sistema s1 = MODO_AGUARDANDO_PLAYBACK
      /\ total_amostras_capturadas s1 = snd (fst g)
      /\ buffer_de_amostras s1 = fst (fst g)
      /\ rastro s1 = rastro s ++ definir_cor_led true false false ++ snd g
                     ++ definir_cor_led false false false
                     ++ mostrar_waveform_display (fst (fst g)) (snd (fst g))
                     ++ [SleepMs 10])
  /\ (estado_do_sistema s = MODO_AGUARDANDO_PLAYBACK ->
      flag_botao_reproduzir_ativado (botoes_do_sistema s) = true ->
      let s2 := iteracao clk_sys clk_adc amb s in
      estado_do_sistema s2 = MODO_ESPERA
      /\ flag_botao_gravar_ativado (botoes_do_sistema s2) = false
      /\ rastro s2 = rastro s ++ definir_cor_led false true false
                     ++ reproducao_de clk_sys s
                     ++ definir_cor_led false false false ++ apagar_tela
                     ++ [SleepMs 10]
      /\ iteracao clk_sys clk_adc amb' s2 = dormir s2)
  /\ (estado_do_sistema s = MODO_AGUARDANDO_PLAYBACK ->
      flag_botao_reproduzir_ativado (botoes_do_sistema s) = false ->
      iteracao clk_sys clk_adc amb s = dormir s).
Proof.
  split; [|split; [|split]].
  - intros He Hg Hr s'. unfold s'. rewrite iteracao_espera_parado by assumption.
    unfold dormir.
    cbn [estado_do_sistema botoes_do_sistema total_amostras_capturadas
         buffer_de_amostras rastro].
    split; [exact He|]. do 4 (split; [reflexivity|]).
    rewrite escritas_gpio_app. apply app_nil_r.
  - intros He Hg g s1. unfold s1. rewrite iteracao_espera_grava by assumption.
    destruct (ramo_gravar_campos amb s) as (H1 & H2 & H3 & H4 & H5).
    unfold dormir.
    cbn [estado_do_sistema botoes_do_sistema total_amostras_capturadas
         buffer_de_amostras rastro].
    split; [exact H1|]. split; [exact H3|]. split; [exact H4|].
    rewrite H5. fold g. apply app_cinco.
  - intros He Hr s2.
    destruct (iteracao_reproduz_campos amb s He Hr) as (H1 & H2 & H3).
    fold s2 in H1, H2, H3.
    split; [exact H1|]. split; [exact H2|]. split; [exact H3|].
    apply iteracao_espera_parado; assumption.
  - intros He Hr. now apply iteracao_aguardando_parado.
Qed.

(** The play flag after the record branch: set if it was set before, or
    if an edge on the play button was accepted during the recording. *)
Lemma ramo_gravar_flag_reproduzir (amb : ambiente) (s : sistema) :
  flag_botao_reproduzir_ativado (botoes_do_sistema s) = true
  \/ (exists pre t post,
        bordas amb = pre ++ (PINO_BOTAO_REPRODUZIR, t) :: post
        /\ fora_da_janela Reproduzir t
             (tratar_bordas pre (limpar_flag_gravar (botoes_do_sistema s))) = true) ->
  flag_botao_reproduzir_ativado (botoes_do_sistema (ramo_gravar clk_adc amb s)) = true.
Proof.
  intros H. unfold ramo_gravar. cbn [botoes_do_sistema].
  destruct H as [H|(pre & t & post & Hb & Hj)].
  - apply (tratar_bordas_preserva_flag Reproduzir). exact H.
  - rewrite Hb, tratar_bordas_app.
    rewrite tratar_bordas_cons.
    apply (tratar_bordas_preserva_flag Reproduzir).
    change PINO_BOTAO_REPRODUZIR with (pino_de Reproduzir).
    rewrite tratador_por_botao, Hj. reflexivity.
Qed.

(** C9: in [MODO_ESPERA] the main loop never clears a set play flag: it
    is still set after an iteration, whether the iteration recorded or
    not.  So when the record flag is set and the play button was pressed
    before the recording (flag already set) or during it (an accepted
    edge among the interrupts of the recording), the iteration leaves
    the loop in [MODO_AGUARDANDO_PLAYBACK] with the play flag set, and
    the very next iteration plays the captured block and returns to
    [MODO_ESPERA], with no further edge. *)
Theorem C9_flag_reproduzir_persiste (s : sistema) (amb amb' : ambiente) :
  estado_do_sistema s = MODO_ESPERA ->
  (flag_botao_reproduzir_ativado (botoes_do_sistema s) = true ->
   flag_botao_reproduzir_ativado
     (botoes_do_sistema (iteracao clk_sys clk_adc amb s)) = true)
  /\ (flag_botao_gravar_ativado (botoes_do_sistema s) = true ->
      flag_botao_reproduzir_ativado (botoes_do_sistema s) = true
      \/ (exists pre t post,
            bordas amb = pre ++ (PINO_BOTAO_REPRODUZIR, t) :: post
            /\ fora_da_janela Reproduzir t
                 (tratar_bordas pre (limpar_flag_gravar (botoes_do_sistema s))) = true) ->
      let s1 := iteracao clk_sys clk_adc amb s in
      let s2 := iteracao clk_sys clk_adc amb' s1 in
      estado_do_sistema s1 = MODO_AGUARDANDO_PLAYBACK
      /\ flag_botao_reproduzir_ativado (botoes_do_sistema s1) = true
      /\ estado_do_sistema s2 = MODO_ESPERA
      /\ rastro s2 = rastro s1 ++ definir_cor_led false true false
                     ++ reproducao_de clk_sys s1
                     ++ definir_cor_led false false false ++ apagar_tela
                     ++ [SleepMs 10]).
Proof.
  intros He. split.
  - intros Hr.
    destruct (flag_botao_gravar_ativado (botoes_do_sistema s)) eqn:Hg.
    + rewrite iteracao_espera_grava by assumption.
      unfold dormir. cbn [botoes_do_sistema].
      apply ramo_gravar_flag_reproduzir. left. exact Hr.
    + rewrite iteracao_espera_parado by assumption. exact Hr.
  - intros Hg Hp s1 s2.
    assert (E1 : s1 = dormir (ramo_gravar clk_adc amb s))
      by (unfold s1; now apply iteracao_espera_grava).
    assert (Hs1 : estado_do_sistema s1 = MODO_AGUARDANDO_PLAYBACK)
      by (rewrite E1; reflexivity).
    assert (Hf1 : flag_botao_reproduzir_ativado (botoes_do_sistema s1) = true).
    { rewrite E1. unfold dormir. cbn [botoes_do_sistema].
      apply ramo_gravar_flag_reproduzir. exact Hp. }
    split; [exact Hs1|]. split; [exact Hf1|].
    destruct (iteracao_reproduz_campos amb' s1 Hs1 Hf1) as (Ha & _ & Hb).
    split; [exact Ha|exact Hb].
Qed.

(** The fields of a state after a sleep and after an interrupt. *)
Lemma rastro_dormir (s : sistema) : rastro (dormir s) = rastro s ++ [SleepMs 10].
Proof. reflexivity. Qed.

Lemma rastro_interrupcao (pino agora : Z) (s : sistema) :
  rastro (interrupcao pino agora s) = rastro s.
Proof. reflexivity. Qed.

Lemma reproducao_de_interrupcao (pino agora : Z) (s : sistema) :
  reproducao_de clk_sys (interrupcao pino agora s) = reproducao_de clk_sys s.
Proof. reflexivity. Qed.

Lemma reproducao_de_dormir (s : sistema) :
  reproducao_de clk_sys (dormir s) = reproducao_de clk_sys s.
Proof. reflexivity. Qed.

Lemma reproducao_de_ramo_gravar (amb : ambiente) (s : sistema) :
  reproducao_de clk_sys (ramo_gravar clk_adc amb s)
  = processo_de_reproducao clk_sys PINO_BUZZER_1 PINO_BUZZER_2
      (fst (fst (gravacao_de clk_adc amb s))) (snd (fst (gravacao_de clk_adc amb s)))
      TAXA_AMOSTRAGEM.
Proof. reflexivity. Qed.

Lemma rastro_ramo_gravar (amb : ambiente) (s : sistema) :
  rastro (ramo_gravar clk_adc amb s)
  = rastro s ++ definir_cor_led true false false ++ snd (gravacao_de clk_adc amb s)
    ++ definir_cor_led false false false
    ++ mostrar_waveform_display (fst (fst (gravacao_de clk_adc amb s)))
         (snd (fst (gravacao_de clk_adc amb s))).
Proof. reflexivity. Qed.

Lemma executar_cons (e : evento) (es : list evento) (s : sistema) :
  executar clk_sys clk_adc (e :: es) s
  = executar clk_sys clk_adc es (passo clk_sys clk_adc s e).
Proof. reflexivity. Qed.

Lemma passo_borda (pino agora : Z) (s : sistema) :
  passo clk_sys clk_adc s (Borda pino agora) = interrupcao pino agora s.
Proof. reflexivity. Qed.

Lemma passo_volta (amb : ambiente) (s : sistema) :
  passo clk_sys clk_adc s (Volta amb) = iteracao clk_sys clk_adc amb s.
Proof. reflexivity. Qed.

(** A whole run from the state at boot: the record button is pressed at
    3 s, the loop records (no button is touched meanwhile) and draws; the
    play button is pressed at 9 s and the loop plays, whatever edges
    arrive during the playback; one more iteration follows.  The trace is
    one recording, one drawing and one playback, and the loop is back in
    [MODO_ESPERA] with no record flag pending. *)
Lemma executar_um_ciclo (buf : list Z) (leituras : nat -> Z) (amb2 amb3 : ambiente) :
  let amb1 := {| adc := leituras; bordas := [] |} in
  let s0 := interrupcao PINO_BOTAO_GRAVAR 3000 (sistema_inicial buf) in
  let g := gravacao_de clk_adc amb1 s0 in
  let s := executar clk_sys clk_adc
             [Borda PINO_BOTAO_GRAVAR 3000; Volta amb1;
              Borda PINO_BOTAO_REPRODUZIR 9000; Volta amb2; Volta amb3]
             (sistema_inicial buf) in
  estado_do_sistema s = MODO_ESPERA
  /\ flag_botao_gravar_ativado (botoes_do_sistema s) = false
  /\ rastro s
     = (definir_cor_led true false false ++ snd g
        ++ definir_cor_led false false false
        ++ mostrar_waveform_display (fst (fst g)) (snd (fst g)) ++ [SleepMs 10])
       ++ (definir_cor_led false true false
           ++ processo_de_reproducao clk_sys PINO_BUZZER_1 PINO_BUZZER_2
                (fst (fst g)) (snd (fst g)) TAXA_AMOSTRAGEM
           ++ definir_cor_led false false false ++ apagar_tela ++ [SleepMs 10])
       ++ [SleepMs 10].
Proof.
  cbv zeta.
  rewrite !executar_cons, !passo_borda, !passo_volta.
  change (executar clk_sys clk_adc [] ?x) with x.
  rewrite (iteracao_espera_grava {| adc := leituras; bordas := [] |}
             (interrupcao PINO_BOTAO_GRAVAR 3000 (sistema_inicial buf)))
    by reflexivity.
  match goal with
  | |- context [iteracao clk_sys clk_adc amb2 ?x] =>
      destruct (iteracao_reproduz_campos amb2 x) as (H1 & H2 & H3);
      [reflexivity|reflexivity|];
      rewrite (iteracao_espera_parado amb3 _ H1 H2);
      generalize dependent (iteracao clk_sys clk_adc amb2 x)
  end.
  intros s2 H1 H2 H3.
  split; [exact H1|]. split; [exact H2|].
  rewrite rastro_dormir, H3.
  rewrite rastro_interrupcao, rastro_dormir, rastro_ramo_gravar, rastro_interrupcao.
  rewrite reproducao_de_interrupcao, reproducao_de_dormir, reproducao_de_ramo_gravar.
  change (rastro (sistema_inicial buf)) with (@nil efeito).
  rewrite app_nil_l, (app_quatro (definir_cor_led true false false)).
  symmetry. apply app_assoc.
Qed.

End PropriedadesDoLaco.

(** C2 on a run: the record button is pressed 3 s after boot, the loop
    records and draws; the play button is pressed at 9 s and the record
    button at 9.5 s, during the playback.  The edge at 9.5 s is accepted
    by the handler, and the record flag is nevertheless false when the
    loop is back in [MODO_ESPERA]. *)
Lemma C2_ciclo_gravar_desenhar_reproduzir_witness :
  estado_do_sistema exemplo_aguardando = MODO_AGUARDANDO_PLAYBACK
  /\ flag_botao_reproduzir_ativado (botoes_do_sistema exemplo_aguardando) = true
  /\ flag_botao_gravar_ativado
       (tratar_bordas (bordas ambiente_com_gravar)
          (limpar_flag_reproduzir (botoes_do_sistema exemplo_aguardando))) = true
  /\ estado_do_sistema
       (iteracao 125000000 48000000 ambiente_com_gravar exemplo_aguardando) = MODO_ESPERA
  /\ flag_botao_gravar_ativado
       (botoes_do_sistema
          (iteracao 125000000 48000000 ambiente_com_gravar exemplo_aguardando)) = false.
Proof.
  assert (H1 : estado_do_sistema exemplo_aguardando = MODO_AGUARDANDO_PLAYBACK)
    by reflexivity.
  assert (H2 : flag_botao_reproduzir_ativado (botoes_do_sistema exemplo_aguardando) = true)
    by reflexivity.
  split; [exact H1|]. split; [exact H2|]. split; [reflexivity|].
  pose proof (proj1 (proj2 (proj2
                (C2_ciclo_gravar_desenhar_reproduzir 125000000 48000000
                   exemplo_aguardando ambiente_com_gravar ambiente_calmo))) H1 H2) as H.
  split; [exact (proj1 H)|exact (proj1 (proj2 H))].
Defined.

(** C9 on a run: the play button is pressed 2.5 s after boot, in
    [MODO_ESPERA]; the flag is still set after the next iteration. *)
Lemma C9_flag_reproduzir_persiste_witness :
  estado_do_sistema exemplo_reproduzir_pendente = MODO_ESPERA
  /\ flag_botao_reproduzir_ativado (botoes_do_sistema exemplo_reproduzir_pendente) = true
  /\ flag_botao_reproduzir_ativado
       (botoes_do_sistema
          (iteracao 125000000 48000000 ambiente_calmo exemplo_reproduzir_pendente)) = true
  /\ flag_botao_reproduzir_ativado (botoes_do_sistema exemplo_gravar_pendente) = false
  /\ estado_do_sistema
       (iteracao 125000000 48000000 ambiente_calmo
          (iteracao 125000000 48000000 ambiente_com_reproduzir exemplo_gravar_pendente))
     = MODO_ESPERA.
Proof.
  assert (H1 : estado_do_sistema exemplo_reproduzir_pendente = MODO_ESPERA)
    by reflexivity.
  assert (H2 : flag_botao_reproduzir_ativado
                 (botoes_do_sistema exemplo_reproduzir_pendente) = true)
    by reflexivity.
  assert (H3 : estado_do_sistema exemplo_gravar_pendente = MODO_ESPERA)
    by reflexivity.
  assert (H4 : flag_botao_gravar_ativado (botoes_do_sistema exemplo_gravar_pendente) = true)
    by reflexivity.
  assert (H5 : exists pre t post,
             bordas ambiente_com_reproduzir = pre ++ (PINO_BOTAO_REPRODUZIR, t) :: post
             /\ fora_da_janela Reproduzir t
                  (tratar_bordas pre
                     (limpar_flag_gravar (botoes_do_sistema exemplo_gravar_pendente))) = true)
    by (exists [], 3500, []; split; reflexivity).
  split; [exact H1|]. split; [exact H2|].
  split; [exact (proj1 (C9_flag_reproduzir_persiste 125000000 48000000
                          exemplo_reproduzir_pendente ambiente_calmo ambiente_calmo H1) H2)|].
  split; [reflexivity|].
  exact (proj1 (proj2 (proj2
           (proj2 (C9_flag_reproduzir_persiste 125000000 48000000
                     exemplo_gravar_pendente ambiente_com_reproduzir ambiente_calmo H3)
              H4 (or_intror H5))))).
Defined.

(** * Further properties of the code *)

(** ** Recording *)

Lemma escrever_length (buf : list Z) (i v : Z) :
  length (escrever buf i v) = length buf.
Proof. unfold escrever. apply escrever_nat_length. Qed.

Lemma dma_transferir_length (adc : nat -> Z) (n k : nat) (buf : list Z) :
  length (fst (dma_transferir adc k n buf)) = length buf.
Proof.
  revert k buf; induction n as [|n IH]; intros k buf; [reflexivity|].
  cbn [dma_transferir].
  specialize (IH (S k) (escrever buf (Z.of_nat k) (u16 (adc k)))).
  destruct (dma_transferir adc (S k) n _) as [b t]. cbn [fst] in *.
  now rewrite IH, escrever_length.
Qed.

Lemma laco_suavizacao_length (n : nat) (i s : Z) (buf : list Z) :
  length (fst (laco_suavizacao n i s buf)) = length buf.
Proof.
  revert i s buf; induction n as [|n IH]; intros i s buf; [reflexivity|].
  cbn [laco_suavizacao].
  set (s' := suavizar_sinal_audio (ler buf i) s FATOR_SUAVIZACAO).
  specialize (IH (i + 1) s' (escrever buf i s')).
  destruct (laco_suavizacao n (i + 1) s' (escrever buf i s')) as [b t]. cbn [fst] in *.
  now rewrite IH, escrever_length.
Qed.

Lemma processo_de_gravacao_length (clk_adc : Z) (adc : nat -> Z) (buf : list Z)
    (freq dur : Z) :
  length (fst (fst (processo_de_gravacao clk_adc adc buf freq dur))) = length buf.
Proof.
  unfold processo_de_gravacao, capturar_amostras_via_dma.
  pose proof (dma_transferir_length adc (Z.to_nat (total_de_amostras freq dur)) 0 buf) as HD.
  destruct (dma_transferir adc 0 _ buf) as [b1 t1]. cbn [fst] in HD.
  pose proof (laco_suavizacao_length (Z.to_nat (total_de_amostras freq dur) - 1) 1
                (ler b1 0) b1) as HL.
  destruct (laco_suavizacao _ 1 (ler b1 0) b1) as [b2 t2]. cbn [fst] in *.
  now rewrite HL.
Qed.

Lemma laco_suavizacao_lidos (n : nat) (i s : Z) (buf : list Z) :
  indices_lidos (snd (laco_suavizacao n i s buf))
  = map (fun k => i + Z.of_nat k) (seq 0 n).
Proof.
  revert i s buf; induction n as [|n IH]; intros i s buf; [reflexivity|].
  cbn [laco_suavizacao].
  set (s' := suavizar_sinal_audio (ler buf i) s FATOR_SUAVIZACAO).
  specialize (IH (i + 1) s' (escrever buf i s')).
  destruct (laco_suavizacao n (i + 1) s' (escrever buf i s')) as [b t].
  cbn [snd indices_lidos] in *. rewrite IH. cbn [seq map]. f_equal; [lia|].
  rewrite <- seq_shift, map_map. apply map_ext. intros k. lia.
Qed.

(** X1: whatever the rate and the duration, the count that the recording
    returns is between 0 and the capacity of the buffer; when the
    requested count fits 32 bits it is the requested count clamped to the
    capacity. *)
Theorem gravacao_contagem_limitada (clk_adc : Z) (adc : nat -> Z) (buf : list Z)
    (freq dur : Z) :
  0 <= snd (fst (processo_de_gravacao clk_adc adc buf freq dur)) <= TAMANHO_BUFFER_AUDIO
  /\ (0 <= freq * dur < 2 ^ 32 ->
      snd (fst (processo_de_gravacao clk_adc adc buf freq dur))
      = Z.min (freq * dur) TAMANHO_BUFFER_AUDIO).
Proof.
  rewrite processo_de_gravacao_total. split.
  - apply total_de_amostras_limites.
  - apply total_de_amostras_satura.
Qed.

(** X1 at a request of 3 seconds at 48 kHz: 144000 samples are asked
    for, 96000 are captured. *)
Lemma gravacao_contagem_limitada_witness :
  0 <= TAXA_AMOSTRAGEM * 3 < 2 ^ 32
  /\ snd (fst (processo_de_gravacao 48000000 adc_exemplo buffer_inicial TAXA_AMOSTRAGEM 3))
     = Z.min (TAXA_AMOSTRAGEM * 3) TAMANHO_BUFFER_AUDIO.
Proof.
  assert (H : 0 <= TAXA_AMOSTRAGEM * 3 < 2 ^ 32) by (vm_compute; split; [discriminate|reflexivity]).
  split; [exact H|].
  exact (proj2 (gravacao_contagem_limitada 48000000 adc_exemplo buffer_inicial
                  TAXA_AMOSTRAGEM 3) H).
Defined.

(** X2: every store of a recording, by the DMA engine or by the
    smoothing loop, goes to an index that is below the returned count and
    so below the capacity of the buffer, for every rate and duration. *)
Theorem gravacao_escreve_dentro_do_buffer (clk_adc : Z) (adc : nat -> Z)
    (buf : list Z) (freq dur : Z) :
  Forall (fun i => 0 <= i < snd (fst (processo_de_gravacao clk_adc adc buf freq dur))
                   /\ i < TAMANHO_BUFFER_AUDIO)
         (indices_escritos (snd (processo_de_gravacao clk_adc adc buf freq dur))).
Proof.
  pose proof (processo_de_gravacao_escritas clk_adc adc buf freq dur) as H.
  pose proof (total_de_amostras_limites freq dur) as Hn.
  rewrite processo_de_gravacao_total in *.
  eapply Forall_impl; [|exact H]. cbv beta. intros i Hi. lia.
Qed.

(** X3: a recording keeps the length of the buffer, and in a buffer of
    the declared capacity every slot from the returned count on keeps its
    value. *)
Theorem gravacao_preserva_o_resto (clk_adc : Z) (adc : nat -> Z) (buf : list Z)
    (freq dur i : Z) :
  TAMANHO_BUFFER_AUDIO <= Z.of_nat (length buf) ->
  snd (fst (processo_de_gravacao clk_adc adc buf freq dur)) <= i ->
  length (fst (fst (processo_de_gravacao clk_adc adc buf freq dur))) = length buf
  /\ ler (fst (fst (processo_de_gravacao clk_adc adc buf freq dur))) i = ler buf i.
Proof.
  intros Hbuf Hi. split; [apply processo_de_gravacao_length|].
  rewrite processo_de_gravacao_total in Hi.
  pose proof (total_de_amostras_limites freq dur) as Hn.
  apply processo_de_gravacao_resto; lia.
Qed.

(** X3 at a capture of four samples: slot 4 keeps its value. *)
Lemma gravacao_preserva_o_resto_witness :
  TAMANHO_BUFFER_AUDIO <= Z.of_nat (length buffer_inicial)
  /\ snd (fst (processo_de_gravacao 48000000 adc_exemplo buffer_inicial 4 1)) <= 4
  /\ ler (fst (fst (processo_de_gravacao 48000000 adc_exemplo buffer_inicial 4 1))) 4
     = ler buffer_inicial 4.
Proof.
  assert (H1 : TAMANHO_BUFFER_AUDIO <= Z.of_nat (length buffer_inicial))
    by (unfold buffer_inicial; rewrite repeat_length; vm_compute; discriminate).
  assert (H2 : snd (fst (processo_de_gravacao 48000000 adc_exemplo buffer_inicial 4 1)) <= 4)
    by (rewrite processo_de_gravacao_total; vm_compute; discriminate).
  split; [exact H1|]. split; [exact H2|].
  exact (proj2 (gravacao_preserva_o_resto 48000000 adc_exemplo buffer_inicial 4 1 4 H1 H2)).
Defined.

(** X4: the CPU loads of a recording are slot 0, once and even when
    nothing was captured, and then the slots 1 .. count-1, once each and
    in order. *)
Theorem gravacao_leituras (clk_adc : Z) (adc : nat -> Z) (buf : list Z) (freq dur : Z) :
  indices_lidos (snd (processo_de_gravacao clk_adc adc buf freq dur))
  = 0 :: map Z.of_nat
           (seq 1 (Z.to_nat (snd (fst (processo_de_gravacao clk_adc adc buf freq dur))) - 1)).
Proof.
  rewrite processo_de_gravacao_total.
  unfold processo_de_gravacao, capturar_amostras_via_dma.
  set (n := Z.to_nat (total_de_amostras freq dur)).
  pose proof (dma_transferir_lidos adc n 0 buf) as HD.
  destruct (dma_transferir adc 0 n buf) as [b1 t1]. cbn [snd] in HD.
  pose proof (laco_suavizacao_lidos (n - 1) 1 (ler b1 0) b1) as HL.
  destruct (laco_suavizacao (n - 1) 1 (ler b1 0) b1) as [b2 t2]. cbn [snd] in *.
  cbn [indices_lidos app]. rewrite !indices_lidos_app. cbn [indices_lidos app].
  rewrite HD, HL. cbn [app]. f_equal.
  rewrite <- seq_shift, map_map. apply map_ext. intros k. lia.
Qed.

(** X5: a block transfer of [n] samples into a destination of at least
    [n] slots leaves the first [n] conversions, in arrival order and as
    16-bit values, in the slots 0 .. n-1, stores nowhere else, and
    returns with the ADC stopped. *)
Theorem captura_dma_preenche_o_bloco (adc : nat -> Z) (destino : list Z) (n : Z) :
  0 <= n <= Z.of_nat (length destino) ->
  fst (capturar_amostras_via_dma adc destino n)
  = bloco_capturado adc n ++ skipn (Z.to_nat n) destino
  /\ indices_escritos (snd (capturar_amostras_via_dma adc destino n)) = indices n
  /\ last (snd (capturar_amostras_via_dma adc destino n)) AdcFifoDrain = AdcRun false.
Proof.
  intros Hn. unfold capturar_amostras_via_dma.
  assert (Hlen : length (firstn (Z.to_nat n) destino) = Z.to_nat n)
    by (apply firstn_length_le; lia).
  pose proof (dma_transferir_buffer adc (firstn (Z.to_nat n) destino) []
                (skipn (Z.to_nat n) destino)) as HD.
  rewrite Hlen in HD. cbn [length app] in HD. rewrite firstn_skipn in HD.
  fold (bloco_capturado adc n) in HD.
  pose proof (dma_transferir_escritas adc (Z.to_nat n) 0 destino) as HE.
  destruct (dma_transferir adc 0 (Z.to_nat n) destino) as [b t]. cbn [fst snd] in *.
  split; [exact HD|]. split.
  - cbn [indices_escritos app]. rewrite indices_escritos_app. cbn [indices_escritos].
    rewrite app_nil_r. exact HE.
  - replace ([AdcFifoDrain; AdcRun false; DmaChannelConfigure n; AdcRun true]
             ++ t ++ [DmaChannelWait; AdcRun false])
      with (([AdcFifoDrain; AdcRun false; DmaChannelConfigure n; AdcRun true]
             ++ t ++ [DmaChannelWait]) ++ [AdcRun false])
      by (rewrite <- !app_assoc; reflexivity).
    apply last_last.
Qed.

(** X5 at a transfer of four samples into the buffer of the project. *)
Lemma captura_dma_preenche_o_bloco_witness :
  0 <= 4 <= Z.of_nat (length buffer_inicial)
  /\ indices_escritos (snd (capturar_amostras_via_dma adc_exemplo buffer_inicial 4))
     = indices 4.
Proof.
  assert (H : 0 <= 4 <= Z.of_nat (length buffer_inicial))
    by (unfold buffer_inicial; rewrite repeat_length; vm_compute; split; discriminate).
  split; [exact H|].
  exact (proj1 (proj2 (captura_dma_preenche_o_bloco adc_exemplo buffer_inicial 4 H))).
Defined.

(** ** Playback *)

Lemma tempo_us_app (t u : list efeito) : tempo_us (t ++ u) = tempo_us t + tempo_us u.
Proof.
  induction t as [|e t IH]; [reflexivity|].
  destruct e; cbn [app tempo_us]; rewrite IH; lia.
Qed.

Lemma tempo_us_passos (pino_a pino_b : Z) (dados : list Z) (max_pwm atraso : Z)
    (l : list Z) :
  tempo_us (flat_map (passo_reproducao pino_a pino_b dados max_pwm atraso) l)
  = Z.of_nat (length l) * atraso.
Proof.
  induction l as [|i l IH]; [reflexivity|].
  cbn [flat_map]. rewrite tempo_us_app, IH.
  cbn [passo_reproducao tempo_us length]. lia.
Qed.

Lemma length_indices (n : Z) : 0 <= n -> Z.of_nat (length (indices n)) = n.
Proof. intros H. unfold indices. rewrite length_map, length_seq. lia. Qed.

(** X6: playback of [n] samples sleeps [n] times the whole number of
    microseconds in [1000000 / freq_amostragem], and nothing more: at the
    rate of the project that is 20 us per sample (not 20.83), so a full
    buffer of 96000 samples is paced over 1.92 s of sleep. *)
Theorem reproducao_tempo_de_espera (clk_sys pino_a pino_b : Z) (dados : list Z)
    (n freq : Z) :
  0 <= n ->
  tempo_us (processo_de_reproducao clk_sys pino_a pino_b dados n freq)
  = n * (1000000 / freq)
  /\ tempo_us (processo_de_reproducao clk_sys pino_a pino_b dados
                 TAMANHO_BUFFER_AUDIO TAXA_AMOSTRAGEM) = 1920000.
Proof.
  intros Hn.
  assert (H : forall m f, 0 <= m ->
            tempo_us (processo_de_reproducao clk_sys pino_a pino_b dados m f)
            = m * (1000000 / f)).
  { intros m f Hm. unfold processo_de_reproducao.
    rewrite tempo_us_app, tempo_us_passos, length_indices by exact Hm.
    cbn [tempo_us]. lia. }
  split; [apply H; exact Hn|].
  rewrite H by (vm_compute; discriminate). reflexivity.
Qed.

(** X6 at three samples at the rate of the project: 60 us of sleep. *)
Lemma reproducao_tempo_de_espera_witness :
  0 <= 3
  /\ tempo_us (processo_de_reproducao 125000000 PINO_BUZZER_1 PINO_BUZZER_2
                 [4095; 100; 0] 3 TAXA_AMOSTRAGEM)
     = 3 * (1000000 / TAXA_AMOSTRAGEM).
Proof.
  assert (H : 0 <= 3) by lia.
  split; [exact H|].
  exact (proj1 (reproducao_tempo_de_espera 125000000 PINO_BUZZER_1 PINO_BUZZER_2
                  [4095; 100; 0] 3 TAXA_AMOSTRAGEM H)).
Defined.

Lemma amostra_amplificada_12_bits (amostra : Z) :
  0 <= amostra < 4096 -> amostra_amplificada amostra = Z.min (17 * amostra / 10) 4095.
Proof.
  intros H. now rewrite amostra_amplificada_min, amostra_escalada_exata.
Qed.

(** X7: on 12-bit samples the amplified value never decreases when the
    sample grows, and it is the ceiling 4095 exactly for the samples from
    2409 up: every sample in the upper 41% of the converter's range is
    played at the same, full level.  Where the product of line 280 fits
    32 bits the PWM level is monotone too. *)
Theorem reproducao_satura_a_partir_de_2409 (s1 s2 max_pwm : Z) :
  0 <= s1 <= s2 -> s2 < 4096 ->
  amostra_amplificada s1 <= amostra_amplificada s2
  /\ (amostra_amplificada s1 = 4095 <-> 2409 <= s1)
  /\ (0 <= max_pwm -> 4095 * max_pwm < 2 ^ 32 ->
      nivel_pwm s1 max_pwm <= nivel_pwm s2 max_pwm).
Proof.
  intros H1 H2.
  rewrite !amostra_amplificada_12_bits by lia.
  assert (Hm : 17 * s1 / 10 <= 17 * s2 / 10) by (apply Z.div_le_mono; lia).
  split; [lia|]. split.
  - split.
    + intros E. destruct (Z_lt_ge_dec s1 2409) as [Hlt|Hge]; [|lia].
      assert (17 * s1 / 10 < 4095) by (apply Z.div_lt_upper_bound; lia). lia.
    + intros Hge.
      assert (4095 <= 17 * s1 / 10) by (apply Z.div_le_lower_bound; lia). lia.
  - intros Hp Hf.
    pose proof (amostra_amplificada_limites s1) as B1.
    pose proof (amostra_amplificada_limites s2) as B2.
    rewrite !nivel_pwm_exato by nia.
    rewrite !amostra_amplificada_12_bits by lia.
    apply Z.div_le_mono; [lia|]. apply Z.mul_le_mono_nonneg_r; lia.
Qed.

(** X7 at the mid-scale sample and the full-scale sample, with the PWM
    range of a 125 MHz clock. *)
Lemma reproducao_satura_a_partir_de_2409_witness :
  0 <= 2048 <= 4095 /\ 4095 < 4096
  /\ amostra_amplificada 2048 <= amostra_amplificada 4095
  /\ (0 <= 2603 -> 4095 * 2603 < 2 ^ 32 -> nivel_pwm 2048 2603 <= nivel_pwm 4095 2603).
Proof.
  assert (H1 : 0 <= 2048 <= 4095) by lia.
  assert (H2 : 4095 < 4096) by lia.
  split; [exact H1|]. split; [exact H2|].
  pose proof (reproducao_satura_a_partir_de_2409 2048 4095 2603 H1 H2) as (Ha & _ & Hb).
  split; [exact Ha|exact Hb].
Defined.

(** ** Waveform rendering *)

Lemma in_faixa_inv (lo hi y : Z) : In y (faixa lo hi) -> lo <= y <= hi.
Proof.
  unfold faixa. intros H. apply in_map_iff in H. destruct H as [k [<- Hk]].
  apply in_seq in Hk. lia.
Qed.

Lemma pixels_desenhar_coluna (dados : list Z) (n c x y : Z) :
  In (x, y) (pixels (desenhar_coluna dados n c)) ->
  x = c /\ y_offset <= y < DISPLAY_HEIGHT.
Proof.
  unfold desenhar_coluna. cbn [pixels].
  pose proof (y_final_limites (ler dados (indice_amostra n c))) as Hy.
  set (yf := y_final _) in *.
  assert (Hc : y_offset <= y_centro < DISPLAY_HEIGHT) by (vm_compute; split; [discriminate|reflexivity]).
  destruct (yf >? y_centro); rewrite pixels_coluna; intros H;
    apply in_map_iff in H; destruct H as [y' [E Hin]]; inversion E; subst;
    apply in_faixa_inv in Hin; lia.
Qed.

(** X8: every pixel that the renderer sets lies in a drawn column (below
    the sample count and below the display width 128) and in the rows
    12 .. 63: it never draws into the caption band and never outside the
    128 x 64 frame, whatever the samples are. *)
Theorem render_pixels_na_area_util (dados : list Z) (n : Z) :
  Forall (fun p => 0 <= fst p < DISPLAY_WIDTH /\ fst p < n
                   /\ y_offset <= snd p < DISPLAY_HEIGHT)
         (pixels (mostrar_waveform_display dados n)).
Proof.
  apply Forall_forall. intros [x y] H. cbn [fst snd].
  unfold mostrar_waveform_display in H. rewrite !pixels_app in H.
  cbn [pixels app] in H. rewrite app_nil_r in H.
  assert (Hx : In x (indices (colunas_a_desenhar n)) /\ y_offset <= y < DISPLAY_HEIGHT).
  { revert H. induction (indices (colunas_a_desenhar n)) as [|c l IH]; [intros []|].
    cbn [flat_map]. rewrite pixels_app. intros H. apply in_app_or in H.
    destruct H as [H|H].
    - apply pixels_desenhar_coluna in H. destruct H as [-> Hy]. split; [now left|exact Hy].
    - destruct (IH H) as [Hin Hy]. split; [now right|exact Hy]. }
  destruct Hx as [Hx Hy]. apply in_indices in Hx.
  unfold colunas_a_desenhar in Hx.
  destruct (n <? DISPLAY_WIDTH) eqn:E.
  - apply Z.ltb_lt in E. lia.
  - apply Z.ltb_ge in E. lia.
Qed.

Lemma mostrar_waveform_display_lidos_limites (dados : list Z) (n : Z) :
  0 <= n <= TAMANHO_BUFFER_AUDIO ->
  Forall (fun i => 0 <= i < n) (indices_lidos (mostrar_waveform_display dados n)).
Proof.
  intros Hn. rewrite mostrar_waveform_display_lidos.
  apply Forall_forall. intros i Hi. apply in_map_iff in Hi.
  destruct Hi as [x [<- Hx]]. apply in_indices in Hx.
  assert (Hcap : TAMANHO_BUFFER_AUDIO = 96000) by reflexivity.
  assert (Hw : DISPLAY_WIDTH = 128) by reflexivity.
  unfold colunas_a_desenhar in Hx.
  destruct (n <? DISPLAY_WIDTH) eqn:E1.
  - apply Z.ltb_lt in E1. rewrite indice_amostra_exato by lia.
    destruct (DISPLAY_WIDTH <? n) eqn:E2; [apply Z.ltb_lt in E2; lia|lia].
  - apply Z.ltb_ge in E1. rewrite indice_amostra_exato by lia.
    destruct (DISPLAY_WIDTH <? n) eqn:E2; [|apply Z.ltb_ge in E2; lia].
    rewrite Hw in *.
    split; [apply Z.div_pos; nia|]. apply Z.div_lt_upper_bound; nia.
Qed.

(** X9: for every count up to the capacity of the buffer, every sample
    index that the renderer reads is below the count: it never reads
    past the captured block. *)
Theorem render_le_dentro_do_bloco (dados : list Z) (n : Z) :
  0 <= n <= TAMANHO_BUFFER_AUDIO ->
  Forall (fun i => 0 <= i < n) (indices_lidos (mostrar_waveform_display dados n)).
Proof.
  exact (mostrar_waveform_display_lidos_limites dados n).
Qed.

(** X9 at a full buffer. *)
Lemma render_le_dentro_do_bloco_witness :
  0 <= TAMANHO_BUFFER_AUDIO <= TAMANHO_BUFFER_AUDIO
  /\ Forall (fun i => 0 <= i < TAMANHO_BUFFER_AUDIO)
            (indices_lidos (mostrar_waveform_display buffer_inicial TAMANHO_BUFFER_AUDIO)).
Proof.
  assert (H : 0 <= TAMANHO_BUFFER_AUDIO <= TAMANHO_BUFFER_AUDIO)
    by (vm_compute; split; discriminate).
  split; [exact H|].
  exact (render_le_dentro_do_bloco buffer_inicial TAMANHO_BUFFER_AUDIO H).
Defined.

Lemma y_final_tabela : forallb y_final_confere (indices 4096) = true.
Proof. vm_compute. reflexivity. Qed.

Lemma y_final_12_bits (amostra : Z) :
  0 <= amostra < 4096 -> y_final amostra = y_final_exato amostra.
Proof.
  intros H. apply Z.eqb_eq.
  exact (forallb_indices y_final_confere 4096 amostra y_final_tabela H).
Qed.

(** X10: for every 12-bit sample the row that a column reaches is
    [38 - (amostra - 2048) * 13 / 256] (the quotient truncated toward
    zero), clipped to the rows 12 .. 63: the single-precision computation
    of line 357 loses nothing.  So a column is the lone midline pixel for
    the samples 2029 .. 2067, reaches the top row 12 for every sample
    from 2560 up and the bottom row 63 for every sample up to 1555, and
    a larger sample never reaches a lower row. *)
Theorem render_altura_da_coluna (s1 s2 : Z) :
  0 <= s1 <= s2 -> s2 < 4096 ->
  y_final s1 = y_final_exato s1
  /\ y_final s2 <= y_final s1
  /\ (y_final s1 = y_centro <-> 2029 <= s1 <= 2067)
  /\ (y_final s1 = y_offset <-> 2560 <= s1)
  /\ (y_final s1 = DISPLAY_HEIGHT - 1 <-> s1 <= 1555).
Proof.
  intros H1 H2. rewrite !y_final_12_bits by lia.
  unfold y_final_exato.
  change y_offset with 12. change (DISPLAY_HEIGHT - 1) with 63.
  change y_centro with 38. change ADC_ZERO with 2048.
  split; [reflexivity|].
  Z.to_euclidean_division_equations. lia.
Qed.

(** X10 at the mid-scale sample and a sample 52 codes above it. *)
Lemma render_altura_da_coluna_witness :
  0 <= 2048 <= 2100 /\ 2100 < 4096
  /\ y_final 2100 <= y_final 2048
  /\ (y_final 2048 = y_centro <-> 2029 <= 2048 <= 2067).
Proof.
  assert (H1 : 0 <= 2048 <= 2100) by lia.
  assert (H2 : 2100 < 4096) by lia.
  split; [exact H1|]. split; [exact H2|].
  pose proof (render_altura_da_coluna 2048 2100 H1 H2) as (_ & Ha & Hb & _).
  split; [exact Ha|exact Hb].
Defined.

(** ** Smoothing *)

Lemma constante_tabela : forallb constante_confere (indices 4096) = true.
Proof. vm_compute. reflexivity. Qed.

Lemma suavizar_constante (x : Z) :
  0 <= x < 4096 -> suavizar_sinal_audio x x FATOR_SUAVIZACAO = x.
Proof.
  intros H. apply Z.eqb_eq.
  exact (forallb_indices constante_confere 4096 x constante_tabela H).
Qed.

Lemma suavizar_resto_constante (x : Z) (n : nat) :
  0 <= x < 4096 -> suavizar_resto x (repeat x n) = repeat x n.
Proof.
  intros H. induction n as [|n IH]; [reflexivity|].
  cbn [repeat suavizar_resto]. rewrite (suavizar_constante x H), IH. reflexivity.
Qed.

(** X11: the filter has unit gain at DC and the truncation does not make
    a steady level drift: a block in which every sample is the same
    12-bit value is left exactly as it is. *)
Theorem suavizacao_preserva_nivel_constante (x : Z) (n : nat) :
  0 <= x < 4096 -> suavizar_bloco (repeat x n) = repeat x n.
Proof.
  intros H. destruct n as [|n]; [reflexivity|].
  cbn [repeat suavizar_bloco]. now rewrite suavizar_resto_constante.
Qed.

(** X11 at five samples at mid-scale. *)
Lemma suavizacao_preserva_nivel_constante_witness :
  0 <= 2048 < 4096 /\ suavizar_bloco (repeat 2048 5%nat) = repeat 2048 5%nat.
Proof.
  assert (H : 0 <= 2048 < 4096) by lia.
  split; [exact H|].
  exact (suavizacao_preserva_nivel_constante 2048 5 H).
Defined.

Lemma ema_resto_12_bits (l : list Z) (anterior : Z) :
  0 <= anterior < 4096 -> Forall (fun x => x = 0 \/ x = 4095) l ->
  Forall (fun y => 0 <= y < 4096) (ema_resto anterior l).
Proof.
  revert anterior; induction l as [|x l IH]; intros anterior Ha Hf; [constructor|].
  inversion Hf as [|? ? Hx Hf']; subst. cbn [ema_resto].
  assert (Hs : 0 <= ema_truncada x anterior < 4096)
    by (apply ema_truncada_12_bits; [destruct Hx; lia|exact Ha]).
  constructor; [exact Hs|]. apply IH; assumption.
Qed.

(** X12: the smoothing of a full-scale square wave (every sample 0 or
    4095) is, sample for sample, the recursion
    [out[i] = (in[i] + 4 * out[i-1]) / 5] in whole numbers, rounded down,
    and it stays within 12 bits. *)
Theorem suavizacao_de_onda_quadrada (l : list Z) :
  Forall (fun x => x = 0 \/ x = 4095) l ->
  suavizar_bloco l = ema_bloco l
  /\ Forall (fun y => 0 <= y < 4096) (suavizar_bloco l).
Proof.
  intros Hf. rewrite (suavizar_bloco_onda_quadrada l Hf). split; [reflexivity|].
  destruct l as [|x r]; [constructor|].
  inversion Hf as [|? ? Hx Hf']; subst. cbn [ema_bloco].
  constructor; [destruct Hx; lia|].
  apply ema_resto_12_bits; [destruct Hx; lia|exact Hf'].
Qed.

(** X12 at the square wave of the specification. *)
Lemma suavizacao_de_onda_quadrada_witness :
  Forall (fun x => x = 0 \/ x = 4095) [4095; 0; 4095; 0]
  /\ suavizar_bloco [4095; 0; 4095; 0] = ema_bloco [4095; 0; 4095; 0].
Proof.
  assert (H : Forall (fun x => x = 0 \/ x = 4095) [4095; 0; 4095; 0])
    by (repeat constructor; lia).
  split; [exact H|].
  exact (proj1 (suavizacao_de_onda_quadrada [4095; 0; 4095; 0] H)).
Defined.

(** ** The button interrupt handler *)

Lemma tratador_outro_pino (k : botao) (pino agora : Z) (b : botoes) :
  pino <> pino_de k ->
  flag_de k (tratador_interrupcao_botao pino agora b) = flag_de k b
  /\ ultimo_de k (tratador_interrupcao_botao pino agora b) = ultimo_de k b.
Proof.
  intros Hp. unfold tratador_interrupcao_botao.
  destruct (pino =? PINO_BOTAO_GRAVAR) eqn:Eg;
    destruct (pino =? PINO_BOTAO_REPRODUZIR) eqn:Er;
    try (apply Z.eqb_eq in Eg); try (apply Z.eqb_eq in Er);
    repeat match goal with |- context [?x >? ?y] => destruct (x >? y) end;
    destruct k; cbn in *; try (split; reflexivity); contradiction.
Qed.

(** X13: the interrupt handler only ever sets a flag: a flag that is
    pending stays pending whatever the pin and the time, an edge on a pin
    other than the record button leaves the record flag and its
    timestamp alone (and likewise for the play button), and an edge on a
    pin that is neither button changes nothing. *)
Theorem tratador_so_liga_o_proprio_flag (pino agora : Z) (b : botoes) :
  let b' := tratador_interrupcao_botao pino agora b in
  (flag_botao_gravar_ativado b = true -> flag_botao_gravar_ativado b' = true)
  /\ (flag_botao_reproduzir_ativado b = true -> flag_botao_reproduzir_ativado b' = true)
  /\ (pino <> PINO_BOTAO_GRAVAR ->
      flag_botao_gravar_ativado b' = flag_botao_gravar_ativado b
      /\ ultimo_acionamento_gravar b' = ultimo_acionamento_gravar b)
  /\ (pino <> PINO_BOTAO_REPRODUZIR ->
      flag_botao_reproduzir_ativado b' = flag_botao_reproduzir_ativado b
      /\ ultimo_acionamento_reproduzir b' = ultimo_acionamento_reproduzir b)
  /\ (pino <> PINO_BOTAO_GRAVAR -> pino <> PINO_BOTAO_REPRODUZIR -> b' = b).
Proof.
  intros b'.
  split; [exact (tratador_preserva_flag Gravar pino agora b)|].
  split; [exact (tratador_preserva_flag Reproduzir pino agora b)|].
  unfold b', tratador_interrupcao_botao.
  destruct (pino =? PINO_BOTAO_GRAVAR) eqn:Eg;
    destruct (pino =? PINO_BOTAO_REPRODUZIR) eqn:Er;
    try (apply Z.eqb_eq in Eg); try (apply Z.eqb_eq in Er);
    repeat match goal with |- context [?x >? ?y] => destruct (x >? y) end;
    cbn; repeat split; intros; try reflexivity; try contradiction.
Qed.

(** X13 at an edge on the play button while a recording is pending. *)
Lemma tratador_so_liga_o_proprio_flag_witness :
  flag_botao_gravar_ativado (aceitar Gravar 3000 botoes_iniciais) = true
  /\ PINO_BOTAO_REPRODUZIR <> PINO_BOTAO_GRAVAR
  /\ flag_botao_gravar_ativado
       (tratador_interrupcao_botao PINO_BOTAO_REPRODUZIR 3100
          (aceitar Gravar 3000 botoes_iniciais)) = true
  /\ ultimo_acionamento_gravar
       (tratador_interrupcao_botao PINO_BOTAO_REPRODUZIR 3100
          (aceitar Gravar 3000 botoes_iniciais))
     = ultimo_acionamento_gravar (aceitar Gravar 3000 botoes_iniciais).
Proof.
  assert (H1 : flag_botao_gravar_ativado (aceitar Gravar 3000 botoes_iniciais) = true)
    by reflexivity.
  assert (H2 : PINO_BOTAO_REPRODUZIR <> PINO_BOTAO_GRAVAR) by discriminate.
  pose proof (tratador_so_liga_o_proprio_flag PINO_BOTAO_REPRODUZIR 3100
                (aceitar Gravar 3000 botoes_iniciais)) as (Ha & _ & Hb & _).
  split; [exact H1|]. split; [exact H2|].
  split; [exact (Ha H1)|exact (proj2 (Hb H2))].
Defined.

Lemma decorrido_zero (agora : Z) : decorrido agora agora = 0.
Proof. unfold decorrido. rewrite Z.sub_diag. reflexivity. Qed.

(** X14: handling the same edge twice (the same pin at the same
    millisecond, as a bouncing contact gives) is the same as handling it
    once, whatever the state: a repeat within the same millisecond is
    never counted again. *)
Theorem tratador_idempotente (pino agora : Z) (b : botoes) :
  tratador_interrupcao_botao pino agora (tratador_interrupcao_botao pino agora b)
  = tratador_interrupcao_botao pino agora b.
Proof.
  unfold tratador_interrupcao_botao.
  destruct (pino =? PINO_BOTAO_GRAVAR) eqn:Eg;
    destruct (pino =? PINO_BOTAO_REPRODUZIR) eqn:Er;
    [apply Z.eqb_eq in Eg; apply Z.eqb_eq in Er; rewrite Eg in Er; discriminate| | |reflexivity].
  - destruct (decorrido agora (ultimo_acionamento_gravar b) >? TEMPO_DEBOUNCE_BOTAO_MS) eqn:E.
    + cbn [ultimo_acionamento_gravar]. rewrite decorrido_zero. reflexivity.
    + rewrite E. reflexivity.
  - destruct (decorrido agora (ultimo_acionamento_reproduzir b) >? TEMPO_DEBOUNCE_BOTAO_MS) eqn:E.
    + cbn [ultimo_acionamento_reproduzir]. rewrite decorrido_zero. reflexivity.
    + rewrite E. reflexivity.
Qed.

Lemma ultimo_de_tratador (k : botao) (pino agora : Z) (b : botoes) :
  ultimo_de k (tratador_interrupcao_botao pino agora b)
  = if (pino =? pino_de k) && fora_da_janela k agora b then agora else ultimo_de k b.
Proof.
  destruct (pino =? pino_de k) eqn:E.
  - apply Z.eqb_eq in E. subst pino. rewrite tratador_por_botao. cbn [andb].
    destruct (fora_da_janela k agora b); [destruct k; reflexivity|reflexivity].
  - apply Z.eqb_neq in E. cbn [andb].
    exact (proj2 (tratador_outro_pino k pino agora b E)).
Qed.

(** X15: over any sequence of edges that arrive in the order of their
    times (on both buttons, before the millisecond counter wraps), the
    edges that the handler accepts on one button are more than 200 ms
    apart, and the first is more than 200 ms after the last one accepted
    before: no button is ever counted twice within the debounce window. *)
Theorem debounce_espaca_as_aceitas (k : botao) (bordas : list (Z * Z)) (b : botoes)
    (u : Z) :
  0 <= ultimo_de k b <= u -> em_ordem u bordas ->
  espacadas (ultimo_de k b) (aceitas k bordas b).
Proof.
  revert b u; induction bordas as [|[pino agora] r IH]; intros b u Hu Ho; [exact I|].
  cbn [em_ordem] in Ho. destruct Ho as [Ht Ho]. cbn [aceitas].
  pose proof (ultimo_de_tratador k pino agora b) as Hn.
  destruct ((pino =? pino_de k) && fora_da_janela k agora b) eqn:E.
  - apply andb_true_iff in E. destruct E as [_ E].
    apply fora_da_janela_spec in E.
    rewrite decorrido_sem_volta in E by lia.
    cbn [espacadas]. split; [exact E|].
    specialize (IH (tratador_interrupcao_botao pino agora b) agora).
    rewrite Hn in IH. apply IH; [lia|exact Ho].
  - specialize (IH (tratador_interrupcao_botao pino agora b) agora).
    rewrite Hn in IH. apply IH; [lia|exact Ho].
Qed.

(** X15 at a bouncing press of the record button 3 s after boot, with a
    press of the play button in between: the edges at 3000 and 3250 ms are
    accepted, those at 3001, 3120 and 3200 ms are not. *)
Lemma debounce_espaca_as_aceitas_witness :
  0 <= ultimo_de Gravar botoes_iniciais <= 0
  /\ em_ordem 0 [(PINO_BOTAO_GRAVAR, 3000); (PINO_BOTAO_GRAVAR, 3001);
                 (PINO_BOTAO_REPRODUZIR, 3100); (PINO_BOTAO_GRAVAR, 3120);
                 (PINO_BOTAO_GRAVAR, 3200); (PINO_BOTAO_GRAVAR, 3250)]
  /\ aceitas Gravar [(PINO_BOTAO_GRAVAR, 3000); (PINO_BOTAO_GRAVAR, 3001);
                     (PINO_BOTAO_REPRODUZIR, 3100); (PINO_BOTAO_GRAVAR, 3120);
                     (PINO_BOTAO_GRAVAR, 3200); (PINO_BOTAO_GRAVAR, 3250)]
       botoes_iniciais = [3000; 3250]
  /\ espacadas (ultimo_de Gravar botoes_iniciais)
       (aceitas Gravar [(PINO_BOTAO_GRAVAR, 3000); (PINO_BOTAO_GRAVAR, 3001);
                        (PINO_BOTAO_REPRODUZIR, 3100); (PINO_BOTAO_GRAVAR, 3120);
                        (PINO_BOTAO_GRAVAR, 3200); (PINO_BOTAO_GRAVAR, 3250)]
          botoes_iniciais).
Proof.
  assert (H1 : 0 <= ultimo_de Gravar botoes_iniciais <= 0) by (cbn; lia).
  assert (H2 : em_ordem 0 [(PINO_BOTAO_GRAVAR, 3000); (PINO_BOTAO_GRAVAR, 3001);
                           (PINO_BOTAO_REPRODUZIR, 3100); (PINO_BOTAO_GRAVAR, 3120);
                           (PINO_BOTAO_GRAVAR, 3200); (PINO_BOTAO_GRAVAR, 3250)])
    by (cbn [em_ordem]; repeat split; lia).
  split; [exact H1|]. split; [exact H2|]. split; [reflexivity|].
  exact (debounce_espaca_as_aceitas Gravar _ botoes_iniciais 0 H1 H2).
Defined.

(** ** Peripherals *)

Lemma so_usa_app (ps : list periferico) (t u : list efeito) :
  so_usa ps (t ++ u) = so_usa ps t && so_usa ps u.
Proof. apply forallb_app. Qed.

Lemma so_usa_flat_map {A : Type} (ps : list periferico) (f : A -> list efeito)
    (l : list A) :
  (forall x, so_usa ps (f x) = true) -> so_usa ps (flat_map f l) = true.
Proof.
  intros H. induction l as [|x l IH]; [reflexivity|].
  cbn [flat_map]. now rewrite so_usa_app, H, IH.
Qed.

Lemma dma_transferir_so_usa (ps : list periferico) (adc : nat -> Z) (n k : nat)
    (buf : list Z) :
  existsb (periferico_eqb Memoria) ps = true ->
  so_usa ps (snd (dma_transferir adc k n buf)) = true.
Proof.
  intros Hm. revert k buf; induction n as [|n IH]; intros k buf; [reflexivity|].
  cbn [dma_transferir].
  specialize (IH (S k) (escrever buf (Z.of_nat k) (u16 (adc k)))).
  destruct (dma_transferir adc (S k) n _) as [b t]. cbn [snd] in *.
  unfold so_usa in *. cbn [forallb periferico_de]. now rewrite Hm, IH.
Qed.

Lemma laco_suavizacao_so_usa (ps : list periferico) (n : nat) (i s : Z) (buf : list Z) :
  existsb (periferico_eqb Memoria) ps = true ->
  so_usa ps (snd (laco_suavizacao n i s buf)) = true.
Proof.
  intros Hm. revert i s buf; induction n as [|n IH]; intros i s buf; [reflexivity|].
  cbn [laco_suavizacao].
  set (s' := suavizar_sinal_audio (ler buf i) s FATOR_SUAVIZACAO).
  specialize (IH (i + 1) s' (escrever buf i s')).
  destruct (laco_suavizacao n (i + 1) s' _) as [b t]. cbn [snd] in *.
  unfold so_usa in *. cbn [forallb periferico_de]. now rewrite Hm, IH.
Qed.

Lemma processo_de_gravacao_so_usa (clk_adc : Z) (adc : nat -> Z) (buf : list Z)
    (freq dur : Z) :
  so_usa [Adc; Dma; Memoria] (snd (processo_de_gravacao clk_adc adc buf freq dur)) = true.
Proof.
  unfold processo_de_gravacao, capturar_amostras_via_dma.
  pose proof (dma_transferir_so_usa [Adc; Dma; Memoria] adc
                (Z.to_nat (total_de_amostras freq dur)) 0 buf eq_refl) as HD.
  destruct (dma_transferir adc 0 _ buf) as [b1 t1]. cbn [snd] in HD.
  pose proof (laco_suavizacao_so_usa [Adc; Dma; Memoria]
                (Z.to_nat (total_de_amostras freq dur) - 1) 1 (ler b1 0) b1 eq_refl) as HL.
  destruct (laco_suavizacao _ 1 (ler b1 0) b1) as [b2 t2]. cbn [snd] in *.
  rewrite !so_usa_app, HD, HL. reflexivity.
Qed.

Lemma processo_de_reproducao_so_usa (clk_sys pino_a pino_b : Z) (dados : list Z)
    (n freq : Z) :
  so_usa [Memoria; Pwm; Temporizador]
    (processo_de_reproducao clk_sys pino_a pino_b dados n freq) = true.
Proof.
  unfold processo_de_reproducao. rewrite so_usa_app.
  rewrite so_usa_flat_map by (intros x; reflexivity). reflexivity.
Qed.

Lemma desenhar_coluna_so_usa (dados : list Z) (n x : Z) :
  so_usa [Memoria; Tela] (desenhar_coluna dados n x) = true.
Proof.
  unfold desenhar_coluna, so_usa. cbn [forallb periferico_de].
  destruct (_ >? _); cbn [existsb periferico_eqb orb andb];
    apply forallb_forall; intros e He; apply in_map_iff in He;
    destruct He as [y [<- _]]; reflexivity.
Qed.

Lemma mostrar_waveform_display_so_usa (dados : list Z) (n : Z) :
  so_usa [Memoria; Tela] (mostrar_waveform_display dados n) = true.
Proof.
  unfold mostrar_waveform_display. rewrite !so_usa_app.
  rewrite so_usa_flat_map by (intros x; apply desenhar_coluna_so_usa). reflexivity.
Qed.

Lemma periferico_fora (p : periferico) (ps : list periferico) (e : efeito) :
  existsb (periferico_eqb (periferico_de e)) ps = true ->
  existsb (periferico_eqb p) ps = false -> periferico_de e <> p.
Proof. intros H1 H2 E. rewrite E in H1. congruence. Qed.

Ltac por_periferico p :=
  let e := fresh "e" in let t := fresh "t" in let IH := fresh "IH" in
  let Hs := fresh "Hs" in let Hp := fresh "Hp" in let He := fresh "He" in
  let Ht := fresh "Ht" in let Hne := fresh "Hne" in
  intros t; induction t as [|e t IH]; intros Hs Hp; [repeat split|];
  unfold so_usa in *; cbn [forallb] in Hs; apply andb_true_iff in Hs;
  destruct Hs as [He Ht]; specialize (IH Ht Hp);
  pose proof (periferico_fora p _ e He Hp) as Hne;
  destruct e; cbn in Hne |- *; try exact IH; exfalso; apply Hne; reflexivity.

Lemma sem_gpio (ps : list periferico) :
  forall t, so_usa ps t = true -> existsb (periferico_eqb Gpio) ps = false ->
  escritas_gpio t = [] /\ contar_reproducoes t = 0.
Proof. por_periferico Gpio. Qed.

Lemma sem_dma (ps : list periferico) :
  forall t, so_usa ps t = true -> existsb (periferico_eqb Dma) ps = false ->
  contar_gravacoes t = 0.
Proof. por_periferico Dma. Qed.

Lemma sem_temporizador (ps : list periferico) :
  forall t, so_usa ps t = true -> existsb (periferico_eqb Temporizador) ps = false ->
  tempo_us t = 0 /\ tempo_ms t = 0.
Proof. por_periferico Temporizador. Qed.

Lemma sem_memoria (ps : list periferico) :
  forall t, so_usa ps t = true -> existsb (periferico_eqb Memoria) ps = false ->
  indices_lidos t = [] /\ indices_escritos t = [].
Proof. por_periferico Memoria. Qed.

Lemma sem_pwm (ps : list periferico) :
  forall t, so_usa ps t = true -> existsb (periferico_eqb Pwm) ps = false ->
  niveis_pwm t = [].
Proof. por_periferico Pwm. Qed.

Lemma sem_tela (ps : list periferico) :
  forall t, so_usa ps t = true -> existsb (periferico_eqb Tela) ps = false ->
  pixels t = [].
Proof. por_periferico Tela. Qed.

Lemma indices_escritos_pixels (x : Z) (ys : list Z) :
  indices_escritos (map (fun y => SetPixel x y true) ys) = [].
Proof. induction ys as [|y ys IH]; [reflexivity|exact IH]. Qed.

Lemma mostrar_waveform_display_escritos (dados : list Z) (n : Z) :
  indices_escritos (mostrar_waveform_display dados n) = [].
Proof.
  unfold mostrar_waveform_display. rewrite !indices_escritos_app.
  cbn [indices_escritos app]. rewrite app_nil_r.
  induction (indices (colunas_a_desenhar n)) as [|x l IH]; [reflexivity|].
  cbn [flat_map]. rewrite indices_escritos_app, IH, app_nil_r.
  unfold desenhar_coluna. cbn [indices_escritos].
  destruct (_ >? _); apply indices_escritos_pixels.
Qed.

Lemma processo_de_reproducao_escritos (clk_sys pino_a pino_b : Z) (dados : list Z)
    (n freq : Z) :
  indices_escritos (processo_de_reproducao clk_sys pino_a pino_b dados n freq) = [].
Proof.
  unfold processo_de_reproducao. rewrite indices_escritos_app.
  cbn [indices_escritos]. rewrite app_nil_r.
  induction (indices n) as [|i l IH]; [reflexivity|].
  cbn [flat_map]. rewrite indices_escritos_app, IH. reflexivity.
Qed.

Lemma processo_de_reproducao_lidos (clk_sys pino_a pino_b : Z) (dados : list Z)
    (n freq : Z) :
  indices_lidos (processo_de_reproducao clk_sys pino_a pino_b dados n freq) = indices n.
Proof.
  unfold processo_de_reproducao. rewrite indices_lidos_app.
  cbn [indices_lidos]. rewrite app_nil_r.
  induction (indices n) as [|i l IH]; [reflexivity|].
  cbn [flat_map]. rewrite indices_lidos_app, IH. reflexivity.
Qed.

(** X16: each phase keeps to its own peripherals, whatever its
    arguments.  A recording acts on the ADC, the DMA channel and the
    sample buffer only: it writes no GPIO, sets no PWM level, draws
    nothing and never sleeps.  A playback acts on the sample buffer, the
    PWM and the timer only, and it only reads the buffer.  The renderer
    acts on the sample buffer and the display only, and it only reads the
    buffer. *)
Theorem cada_fase_nos_seus_perifericos (clk_adc clk_sys : Z) (adc : nat -> Z)
    (buf dados : list Z) (freq dur pino_a pino_b n : Z) :
  so_usa [Adc; Dma; Memoria] (snd (processo_de_gravacao clk_adc adc buf freq dur)) = true
  /\ so_usa [Memoria; Pwm; Temporizador]
       (processo_de_reproducao clk_sys pino_a pino_b dados n freq) = true
  /\ indices_escritos (processo_de_reproducao clk_sys pino_a pino_b dados n freq) = []
  /\ so_usa [Memoria; Tela] (mostrar_waveform_display dados n) = true
  /\ indices_escritos (mostrar_waveform_display dados n) = [].
Proof.
  split; [apply processo_de_gravacao_so_usa|].
  split; [apply processo_de_reproducao_so_usa|].
  split; [apply processo_de_reproducao_escritos|].
  split; [apply mostrar_waveform_display_so_usa|apply mostrar_waveform_display_escritos].
Qed.

(** ** Runs of the main loop *)

Lemma contar_gravacoes_app (t u : list efeito) :
  contar_gravacoes (t ++ u) = contar_gravacoes t + contar_gravacoes u.
Proof.
  induction t as [|e t IH]; [reflexivity|].
  destruct e; cbn [app contar_gravacoes]; rewrite IH; lia.
Qed.

Lemma contar_reproducoes_app (t u : list efeito) :
  contar_reproducoes (t ++ u) = contar_reproducoes t + contar_reproducoes u.
Proof.
  induction t as [|e t IH]; [reflexivity|].
  destruct e; cbn [app contar_reproducoes]; try exact IH.
  destruct valor; rewrite IH; lia.
Qed.

Lemma tempo_ms_app (t u : list efeito) : tempo_ms (t ++ u) = tempo_ms t + tempo_ms u.
Proof.
  induction t as [|e t IH]; [reflexivity|].
  destruct e; cbn [app tempo_ms]; rewrite IH; lia.
Qed.

Lemma contar_reproducoes_nao_negativo (t : list efeito) : 0 <= contar_reproducoes t.
Proof.
  induction t as [|e t IH]; [cbn; lia|].
  destruct e; cbn [contar_reproducoes]; try exact IH.
  destruct valor; [destruct (pino =? PINO_LED_VERDE)|]; lia.
Qed.

Lemma processo_de_gravacao_contagem (clk_adc : Z) (adc : nat -> Z) (buf : list Z)
    (freq dur : Z) :
  contar_gravacoes (snd (processo_de_gravacao clk_adc adc buf freq dur)) = 1.
Proof.
  unfold processo_de_gravacao, capturar_amostras_via_dma.
  pose proof (dma_transferir_so_usa [Memoria] adc
                (Z.to_nat (total_de_amostras freq dur)) 0 buf eq_refl) as HD.
  destruct (dma_transferir adc 0 _ buf) as [b1 t1]. cbn [snd] in HD.
  pose proof (laco_suavizacao_so_usa [Memoria]
                (Z.to_nat (total_de_amostras freq dur) - 1) 1 (ler b1 0) b1 eq_refl) as HL.
  destruct (laco_suavizacao _ 1 (ler b1 0) b1) as [b2 t2]. cbn [snd] in *.
  apply sem_dma in HD; [|reflexivity]. apply sem_dma in HL; [|reflexivity].
  rewrite !contar_gravacoes_app, HD, HL. reflexivity.
Qed.

Lemma processo_de_gravacao_lidos_limites (clk_adc : Z) (adc : nat -> Z) (buf : list Z)
    (freq dur : Z) :
  Forall (fun i => 0 <= i < TAMANHO_BUFFER_AUDIO)
         (indices_lidos (snd (processo_de_gravacao clk_adc adc buf freq dur))).
Proof.
  pose proof (total_de_amostras_limites freq dur) as Hn.
  unfold processo_de_gravacao, capturar_amostras_via_dma.
  set (n := total_de_amostras freq dur) in *.
  pose proof (dma_transferir_lidos adc (Z.to_nat n) 0 buf) as HD.
  destruct (dma_transferir adc 0 (Z.to_nat n) buf) as [b1 t1]. cbn [snd] in HD.
  pose proof (laco_suavizacao_lidos (Z.to_nat n - 1) 1 (ler b1 0) b1) as HL.
  destruct (laco_suavizacao (Z.to_nat n - 1) 1 (ler b1 0) b1) as [b2 t2]. cbn [snd] in *.
  cbn [indices_lidos app]. rewrite !indices_lidos_app. cbn [indices_lidos app].
  rewrite HD, HL. cbn [app].
  assert (Hcap : TAMANHO_BUFFER_AUDIO = 96000) by reflexivity.
  constructor; [lia|].
  apply Forall_forall; intros i Hi.
  apply in_map_iff in Hi; destruct Hi as [k [<- Hk]]; apply in_seq in Hk; lia.
Qed.

Lemma total_do_projeto :
  total_de_amostras TAXA_AMOSTRAGEM DURACAO_GRAVACAO_S = TAMANHO_BUFFER_AUDIO.
Proof. reflexivity. Qed.

Lemma historico_led_mais_um (n : nat) :
  historico_led n true ++ episodio_led true = historico_led (S n) false.
Proof.
  unfold historico_led. rewrite app_nil_r, <- app_assoc.
  change (S n) with (1 + n)%nat. rewrite Nat.add_comm, repeat_app, concat_app.
  cbn [repeat concat]. now rewrite app_nil_r.
Qed.

Ltac mede :=
  rewrite ?contar_gravacoes_app, ?contar_reproducoes_app, ?tempo_us_app,
          ?escritas_gpio_app, ?indices_lidos_app, ?indices_escritos_app.

(** The invariant carries over a step that adds the entries [t] of a
    pause, of a recording or of a playback. *)
Lemma invariante_pausa (cap : nat) (s s' : sistema) :
  invariante_do_laco cap s ->
  buffer_de_amostras s' = buffer_de_amostras s ->
  total_amostras_capturadas s' = total_amostras_capturadas s ->
  estado_do_sistema s' = estado_do_sistema s ->
  rastro s' = rastro s ++ [SleepMs 10] ->
  invariante_do_laco cap s'.
Proof.
  unfold invariante_do_laco, aguardando.
  intros (I1 & I2 & I3 & I4 & I5 & I6 & I7 & I8) Hb Ht He Hr.
  rewrite Hb, Ht, He, Hr. mede. cbn [contar_gravacoes contar_reproducoes tempo_us
    escritas_gpio indices_lidos indices_escritos].
  rewrite !Z.add_0_r, !app_nil_r. repeat split; assumption.
Qed.

Lemma invariante_gravacao (cap : nat) (s s' : sistema) (buf : list Z) (tg tr : list efeito) :
  invariante_do_laco cap s ->
  estado_do_sistema s = MODO_ESPERA ->
  estado_do_sistema s' = MODO_AGUARDANDO_PLAYBACK ->
  buffer_de_amostras s' = buf -> length buf = length (buffer_de_amostras s) ->
  total_amostras_capturadas s' = TAMANHO_BUFFER_AUDIO ->
  rastro s' = rastro s ++ definir_cor_led true false false ++ tg
              ++ definir_cor_led false false false ++ tr ->
  so_usa [Adc; Dma; Memoria] tg = true -> contar_gravacoes tg = 1 ->
  Forall (fun i => 0 <= i < TAMANHO_BUFFER_AUDIO) (indices_lidos tg) ->
  Forall (fun i => 0 <= i < TAMANHO_BUFFER_AUDIO) (indices_escritos tg) ->
  so_usa [Memoria; Tela] tr = true -> indices_escritos tr = [] ->
  Forall (fun i => 0 <= i < TAMANHO_BUFFER_AUDIO) (indices_lidos tr) ->
  invariante_do_laco cap s'.
Proof.
  unfold invariante_do_laco, aguardando.
  intros (I1 & I2 & I3 & I4 & I5 & I6 & I7 & I8) He He' Hb Hl Ht Hr
         Ug Cg Lg Eg Ur Er Lr.
  rewrite He in *. rewrite He', Hb, Ht, Hr, Hl. mede.
  destruct (sem_gpio _ tg Ug eq_refl) as [G1 G2].
  destruct (sem_temporizador _ tg Ug eq_refl) as [G3 _].
  destruct (sem_gpio _ tr Ur eq_refl) as [R1 R2].
  destruct (sem_temporizador _ tr Ur eq_refl) as [R3 _].
  pose proof (sem_dma _ tr Ur eq_refl) as R4.
  rewrite G1, G2, G3, R1, R2, R3, R4, Cg, Er.
  change (contar_gravacoes (definir_cor_led true false false)) with 0.
  change (contar_gravacoes (definir_cor_led false false false)) with 0.
  change (contar_reproducoes (definir_cor_led true false false)) with 0.
  change (contar_reproducoes (definir_cor_led false false false)) with 0.
  change (tempo_us (definir_cor_led true false false)) with 0.
  change (tempo_us (definir_cor_led false false false)) with 0.
  change (indices_lidos (definir_cor_led true false false)) with (@nil Z).
  change (indices_lidos (definir_cor_led false false false)) with (@nil Z).
  change (indices_escritos (definir_cor_led true false false)) with (@nil Z).
  change (indices_escritos (definir_cor_led false false false)) with (@nil Z).
  cbn [app]. rewrite !app_nil_r, !Z.add_0_r, !Z.add_0_l.
  split; [exact I1|]. split; [exact I2|]. split; [lia|].
  split; [destruct (Z.eqb_spec (contar_gravacoes (rastro s) + 1) 0); [lia|reflexivity]|].
  split.
  { rewrite I5. unfold historico_led at 1. rewrite app_nil_r.
    unfold historico_led, episodio_led. cbn [negb].
    rewrite escritas_gpio_app. reflexivity. }
  split; [exact I6|].
  split; [repeat (apply Forall_app; split); assumption|].
  apply Forall_app; split; assumption.
Qed.

Lemma invariante_reproducao (cap : nat) (s s' : sistema) (tp : list efeito) :
  invariante_do_laco cap s ->
  estado_do_sistema s = MODO_AGUARDANDO_PLAYBACK ->
  estado_do_sistema s' = MODO_ESPERA ->
  buffer_de_amostras s' = buffer_de_amostras s ->
  total_amostras_capturadas s' = total_amostras_capturadas s ->
  rastro s' = rastro s ++ definir_cor_led false true false ++ tp
              ++ definir_cor_led false false false ++ apagar_tela ->
  so_usa [Memoria; Pwm; Temporizador] tp = true ->
  (total_amostras_capturadas s = TAMANHO_BUFFER_AUDIO ->
   tempo_us tp = 1920000 /\ indices_escritos tp = []
   /\ Forall (fun i => 0 <= i < TAMANHO_BUFFER_AUDIO) (indices_lidos tp)) ->
  invariante_do_laco cap s'.
Proof.
  unfold invariante_do_laco, aguardando.
  intros (I1 & I2 & I3 & I4 & I5 & I6 & I7 & I8) He He' Hb Ht Hr Up Hp.
  rewrite He in *. rewrite He', Hb, Ht, Hr. mede.
  assert (Htot : total_amostras_capturadas s = TAMANHO_BUFFER_AUDIO).
  { rewrite I4. destruct (Z.eqb_spec (contar_gravacoes (rastro s)) 0); [lia|reflexivity]. }
  destruct (Hp Htot) as (P1 & P2 & P3).
  destruct (sem_gpio _ tp Up eq_refl) as [G1 G2].
  pose proof (sem_dma _ tp Up eq_refl) as G3.
  rewrite G1, G2, G3, P1, P2.
  change (contar_gravacoes (definir_cor_led false true false)) with 0.
  change (contar_gravacoes (definir_cor_led false false false)) with 0.
  change (contar_gravacoes apagar_tela) with 0.
  change (contar_reproducoes (definir_cor_led false true false)) with 1.
  change (contar_reproducoes (definir_cor_led false false false)) with 0.
  change (contar_reproducoes apagar_tela) with 0.
  change (tempo_us (definir_cor_led false true false)) with 0.
  change (tempo_us (definir_cor_led false false false)) with 0.
  change (tempo_us apagar_tela) with 0.
  change (escritas_gpio apagar_tela) with (@nil (Z * bool)).
  change (indices_lidos (definir_cor_led false true false)) with (@nil Z).
  change (indices_lidos (definir_cor_led false false false)) with (@nil Z).
  change (indices_lidos apagar_tela) with (@nil Z).
  change (indices_escritos (definir_cor_led false true false)) with (@nil Z).
  change (indices_escritos (definir_cor_led false false false)) with (@nil Z).
  change (indices_escritos apagar_tela) with (@nil Z).
  cbn [app]. rewrite !app_nil_r, !Z.add_0_r, ?Z.add_0_l.
  split; [exact I1|]. split; [lia|]. split; [lia|].
  split.
  { rewrite Htot. destruct (Z.eqb_spec (contar_gravacoes (rastro s)) 0); [lia|reflexivity]. }
  split.
  { rewrite I5. replace (Z.to_nat (contar_reproducoes (rastro s) + 1))
      with (S (Z.to_nat (contar_reproducoes (rastro s)))) by lia.
    rewrite <- historico_led_mais_um. f_equal. }
  split; [lia|].
  split; [apply Forall_app; split; assumption|exact I8].
Qed.

Section Execucao.

Variables clk_sys clk_adc : Z.

Lemma invariante_dormir (cap : nat) (s : sistema) :
  invariante_do_laco cap s -> invariante_do_laco cap (dormir s).
Proof. intros H. now apply (invariante_pausa cap s). Qed.

Lemma invariante_interrupcao (cap : nat) (pino agora : Z) (s : sistema) :
  invariante_do_laco cap s -> invariante_do_laco cap (interrupcao pino agora s).
Proof. intros H. exact H. Qed.

Lemma gravacao_de_fatos (amb : ambiente) (s : sistema) :
  snd (fst (gravacao_de clk_adc amb s)) = TAMANHO_BUFFER_AUDIO
  /\ length (fst (fst (gravacao_de clk_adc amb s))) = length (buffer_de_amostras s)
  /\ so_usa [Adc; Dma; Memoria] (snd (gravacao_de clk_adc amb s)) = true
  /\ contar_gravacoes (snd (gravacao_de clk_adc amb s)) = 1
  /\ Forall (fun i => 0 <= i < TAMANHO_BUFFER_AUDIO)
            (indices_lidos (snd (gravacao_de clk_adc amb s)))
  /\ Forall (fun i => 0 <= i < TAMANHO_BUFFER_AUDIO)
            (indices_escritos (snd (gravacao_de clk_adc amb s))).
Proof.
  assert (Ht : snd (fst (gravacao_de clk_adc amb s)) = TAMANHO_BUFFER_AUDIO).
  { unfold gravacao_de. rewrite processo_de_gravacao_total. apply total_do_projeto. }
  split; [exact Ht|].
  split; [unfold gravacao_de; apply processo_de_gravacao_length|].
  split; [unfold gravacao_de; apply processo_de_gravacao_so_usa|].
  split; [unfold gravacao_de; apply processo_de_gravacao_contagem|].
  split; [unfold gravacao_de; apply processo_de_gravacao_lidos_limites|].
  assert (He : Forall (fun i => 0 <= i < snd (fst (gravacao_de clk_adc amb s)))
                 (indices_escritos (snd (gravacao_de clk_adc amb s))))
    by (unfold gravacao_de; apply processo_de_gravacao_escritas).
  eapply Forall_impl; [|exact He]. cbv beta. intros i Hi. rewrite Ht in Hi. exact Hi.
Qed.

Lemma invariante_ramo_gravar (cap : nat) (amb : ambiente) (s : sistema) :
  invariante_do_laco cap s -> estado_do_sistema s = MODO_ESPERA ->
  invariante_do_laco cap (ramo_gravar clk_adc amb s).
Proof.
  intros H He.
  destruct (ramo_gravar_campos clk_adc amb s) as (H1 & _ & H3 & H4 & H5).
  destruct (gravacao_de_fatos amb s) as (Ht & Hl & Hu & Hc & Hli & Hes).
  apply (invariante_gravacao cap s (ramo_gravar clk_adc amb s)
           (fst (fst (gravacao_de clk_adc amb s))) (snd (gravacao_de clk_adc amb s))
           (mostrar_waveform_display (fst (fst (gravacao_de clk_adc amb s)))
              (snd (fst (gravacao_de clk_adc amb s))))).
  - exact H.
  - exact He.
  - exact H1.
  - exact H4.
  - exact Hl.
  - rewrite H3. exact Ht.
  - exact H5.
  - exact Hu.
  - exact Hc.
  - exact Hli.
  - exact Hes.
  - apply mostrar_waveform_display_so_usa.
  - apply mostrar_waveform_display_escritos.
  - rewrite Ht. apply mostrar_waveform_display_lidos_limites.
    vm_compute. split; discriminate.
Qed.

Lemma invariante_ramo_reproduzir (cap : nat) (amb : ambiente) (s : sistema) :
  invariante_do_laco cap s -> estado_do_sistema s = MODO_AGUARDANDO_PLAYBACK ->
  invariante_do_laco cap (ramo_reproduzir clk_sys amb s).
Proof.
  intros H He.
  destruct (ramo_reproduzir_campos clk_sys amb s) as (H1 & _ & H3 & H4 & H5).
  apply (invariante_reproducao cap s _ (reproducao_de clk_sys s)); try assumption.
  - apply processo_de_reproducao_so_usa.
  - intros Ht. unfold reproducao_de. rewrite Ht.
    split; [|split].
    + unfold processo_de_reproducao.
      rewrite tempo_us_app, tempo_us_passos, length_indices
        by (vm_compute; discriminate).
      reflexivity.
    + apply processo_de_reproducao_escritos.
    + rewrite processo_de_reproducao_lidos. apply Forall_forall.
      intros i Hi. apply in_indices in Hi. exact Hi.
Qed.

Lemma invariante_iteracao (cap : nat) (amb : ambiente) (s : sistema) :
  invariante_do_laco cap s -> invariante_do_laco cap (iteracao clk_sys clk_adc amb s).
Proof.
  intros H. unfold iteracao. apply invariante_dormir.
  destruct (estado_do_sistema s) eqn:He.
  - destruct (flag_botao_gravar_ativado _); [|exact H].
    now apply invariante_ramo_gravar.
  - destruct (flag_botao_reproduzir_ativado _); [|exact H].
    now apply invariante_ramo_reproduzir.
Qed.

Lemma invariante_executar (cap : nat) (es : list evento) (s : sistema) :
  invariante_do_laco cap s -> invariante_do_laco cap (executar clk_sys clk_adc es s).
Proof.
  revert s; induction es as [|e es IH]; intros s H; [exact H|].
  rewrite executar_cons. apply IH.
  destruct e as [pino agora|amb].
  - rewrite passo_borda. now apply invariante_interrupcao.
  - rewrite passo_volta. now apply invariante_iteracao.
Qed.

Lemma invariante_inicial (buf : list Z) :
  invariante_do_laco (length buf) (sistema_inicial buf).
Proof.
  unfold invariante_do_laco. cbn. repeat split; try lia; constructor.
Qed.

End Execucao.

Lemma processo_de_reproducao_sem_sleep_ms (clk_sys pino_a pino_b : Z) (dados : list Z)
    (n freq : Z) :
  tempo_ms (processo_de_reproducao clk_sys pino_a pino_b dados n freq) = 0.
Proof.
  unfold processo_de_reproducao. rewrite tempo_ms_app. cbn [tempo_ms].
  induction (indices n) as [|i l IH]; [reflexivity|].
  cbn [flat_map]. rewrite tempo_ms_app. exact IH.
Qed.

Lemma processo_de_gravacao_sem_sleep_ms (clk_adc : Z) (adc : nat -> Z) (buf : list Z)
    (freq dur : Z) :
  tempo_ms (snd (processo_de_gravacao clk_adc adc buf freq dur)) = 0.
Proof.
  exact (proj2 (sem_temporizador [Adc; Dma; Memoria] _
                  (processo_de_gravacao_so_usa clk_adc adc buf freq dur) eq_refl)).
Qed.

Lemma mostrar_waveform_display_sem_sleep_ms (dados : list Z) (n : Z) :
  tempo_ms (mostrar_waveform_display dados n) = 0.
Proof.
  exact (proj2 (sem_temporizador [Memoria; Tela] _
                  (mostrar_waveform_display_so_usa dados n) eq_refl)).
Qed.

Lemma tempo_ms_ramo (t a b c d : list efeito) :
  tempo_ms a = 0 -> tempo_ms b = 0 -> tempo_ms c = 0 -> tempo_ms d = 0 ->
  tempo_ms (t ++ a ++ b ++ c ++ d) = tempo_ms t.
Proof. intros Ha Hb Hc Hd. rewrite !tempo_ms_app. lia. Qed.

Lemma tempo_ms_iteracao (clk_sys clk_adc : Z) (amb : ambiente) (s : sistema) :
  tempo_ms (rastro (iteracao clk_sys clk_adc amb s)) = tempo_ms (rastro s) + 10.
Proof.
  unfold iteracao. rewrite rastro_dormir, tempo_ms_app.
  change (tempo_ms [SleepMs 10]) with 10. f_equal.
  destruct (estado_do_sistema s).
  - destruct (flag_botao_gravar_ativado _); [|reflexivity].
    rewrite rastro_ramo_gravar. apply tempo_ms_ramo.
    + reflexivity.
    + unfold gravacao_de. apply processo_de_gravacao_sem_sleep_ms.
    + reflexivity.
    + apply mostrar_waveform_display_sem_sleep_ms.
  - destruct (flag_botao_reproduzir_ativado _); [|reflexivity].
    destruct (ramo_reproduzir_campos clk_sys amb s) as (_ & _ & _ & _ & H5).
    rewrite H5. apply tempo_ms_ramo.
    + reflexivity.
    + unfold reproducao_de. apply processo_de_reproducao_sem_sleep_ms.
    + reflexivity.
    + reflexivity.
Qed.

Lemma tempo_ms_executar (clk_sys clk_adc : Z) (es : list evento) (s : sistema) :
  tempo_ms (rastro (executar clk_sys clk_adc es s)) = tempo_ms (rastro s) + 10 * voltas es.
Proof.
  revert s; induction es as [|e es IH]; intros s; [cbn; lia|].
  rewrite executar_cons, IH. destruct e as [pino agora|amb]; cbn [voltas].
  - rewrite passo_borda, rastro_interrupcao. reflexivity.
  - rewrite passo_volta, tempo_ms_iteracao. lia.
Qed.

Lemma in_historico_led (n : nat) (pendente : bool) (x : Z * bool) :
  In x (historico_led n pendente) -> In x (episodio_led false ++ episodio_led true).
Proof.
  unfold historico_led. intros H. apply in_app_or in H. destruct H as [H|H].
  - apply in_concat in H. destruct H as [l [Hl Hx]].
    apply repeat_spec in Hl. now subst l.
  - destruct pendente; [|contradiction]. apply in_or_app. now left.
Qed.

(** X17: in every run of the main loop from boot, whatever the buttons
    and the ADC do, recordings and playbacks alternate: the number of
    recordings is the number of playbacks, plus one exactly when the loop
    waits in [MODO_AGUARDANDO_PLAYBACK].  So a captured block is played
    at most once and never overwritten before it is played.  The sample
    count is 0 until the first recording and the capacity of the buffer
    from then on, and the buffer keeps its length. *)
Theorem laco_alterna_gravacao_e_reproducao (clk_sys clk_adc : Z) (es : list evento)
    (buf : list Z) :
  let s := executar clk_sys clk_adc es (sistema_inicial buf) in
  0 <= contar_reproducoes (rastro s)
  /\ contar_gravacoes (rastro s)
     = contar_reproducoes (rastro s) + (if aguardando s then 1 else 0)
  /\ total_amostras_capturadas s
     = (if contar_gravacoes (rastro s) =? 0 then 0 else TAMANHO_BUFFER_AUDIO)
  /\ length (buffer_de_amostras s) = length buf.
Proof.
  cbv zeta.
  destruct (invariante_executar clk_sys clk_adc (length buf) es (sistema_inicial buf)
              (invariante_inicial buf)) as (I1 & I2 & I3 & I4 & _).
  split; [exact I2|]. split; [exact I3|]. split; [exact I4|exact I1].
Qed.

(** X18: in every run the GPIO writes are, for each completed cycle, red
    on, all off, green on, all off, followed by red on, all off if a
    recording awaits its playback: between two steps the LED is off.
    Only the three LED pins are written and the blue LED is never lit. *)
Theorem laco_historico_do_led (clk_sys clk_adc : Z) (es : list evento) (buf : list Z) :
  let s := executar clk_sys clk_adc es (sistema_inicial buf) in
  escritas_gpio (rastro s)
  = historico_led (Z.to_nat (contar_reproducoes (rastro s))) (aguardando s)
  /\ forall p v, In (p, v) (escritas_gpio (rastro s)) ->
       (p = PINO_LED_VERMELHO \/ p = PINO_LED_VERDE \/ p = PINO_LED_AZUL)
       /\ (p = PINO_LED_AZUL -> v = false).
Proof.
  cbv zeta.
  destruct (invariante_executar clk_sys clk_adc (length buf) es (sistema_inicial buf)
              (invariante_inicial buf)) as (_ & _ & _ & _ & I5 & _).
  split; [exact I5|].
  intros p v H. rewrite I5 in H. apply in_historico_led in H.
  cbn in H.
  repeat (destruct H as [H|H]; [inversion H; subst; split;
            [auto|intros E; try reflexivity; discriminate E]|]).
  contradiction.
Qed.

(** X19: in every run the time spent in [sleep_ms] is 10 ms for each pass
    of the loop, whether the pass records, plays or idles, and the time
    spent in [sleep_us] is 1.92 s for each playback. *)
Theorem laco_tempos_de_espera (clk_sys clk_adc : Z) (es : list evento) (buf : list Z) :
  let s := executar clk_sys clk_adc es (sistema_inicial buf) in
  tempo_ms (rastro s) = 10 * voltas es
  /\ tempo_us (rastro s) = 1920000 * contar_reproducoes (rastro s).
Proof.
  cbv zeta.
  destruct (invariante_executar clk_sys clk_adc (length buf) es (sistema_inicial buf)
              (invariante_inicial buf)) as (_ & _ & _ & _ & _ & I6 & _).
  split; [|exact I6].
  rewrite tempo_ms_executar. reflexivity.
Qed.

(** X20: in every run, every load from and every store to the sample
    buffer, by the DMA engine, the smoothing loop, the renderer or the
    playback, is at an index below the capacity of the buffer. *)
Theorem laco_acessa_dentro_do_buffer (clk_sys clk_adc : Z) (es : list evento)
    (buf : list Z) :
  let s := executar clk_sys clk_adc es (sistema_inicial buf) in
  Forall (fun i => 0 <= i < TAMANHO_BUFFER_AUDIO)
         (indices_lidos (rastro s) ++ indices_escritos (rastro s)).
Proof.
  cbv zeta.
  destruct (invariante_executar clk_sys clk_adc (length buf) es (sistema_inicial buf)
              (invariante_inicial buf)) as (_ & _ & _ & _ & _ & _ & I7 & I8).
  apply Forall_app. split; assumption.
Qed.

(** ** PWM set-up and playback *)

(** X21: when the system clock is at least the sample rate and less than
    65537 times it, the wrap that [configurar_saida_pwm] configures is
    the range that [processo_de_reproducao] scales to, it fits 16 bits,
    and every level that a playback writes is between 0 and that wrap
    and is unchanged by the 16-bit parameter of [pwm_set_gpio_level]: the
    duty cycle never exceeds 100 %. *)
Theorem reproducao_respeita_o_wrap (clk_sys pino_a pino_b : Z) (dados : list Z)
    (n freq : Z) :
  0 < freq -> freq <= clk_sys < 65537 * freq ->
  wrap_configurado clk_sys freq = valor_max_pwm clk_sys freq
  /\ 1 <= wrap_configurado clk_sys freq <= 65535
  /\ Forall (fun pn => 0 <= snd pn <= wrap_configurado clk_sys freq
                       /\ u16 (snd pn) = snd pn)
            (niveis_pwm (processo_de_reproducao clk_sys pino_a pino_b dados n freq)).
Proof.
  intros Hf Hc.
  assert (Hq : 1 <= clk_sys / freq <= 65536).
  { split; [apply Z.div_le_lower_bound; lia|].
    assert (clk_sys / freq < 65537) by (apply Z.div_lt_upper_bound; lia). lia. }
  assert (Hm : 1 <= valor_max_pwm clk_sys freq <= 65535).
  { unfold valor_max_pwm. rewrite u32_small by lia.
    destruct (clk_sys / freq - 1 =? 0) eqn:E; [lia|]. apply Z.eqb_neq in E. lia. }
  assert (Hw : wrap_configurado clk_sys freq = valor_max_pwm clk_sys freq).
  { unfold wrap_configurado. change (topo_pwm clk_sys freq) with (valor_max_pwm clk_sys freq).
    apply u16_small. lia. }
  split; [exact Hw|]. split; [rewrite Hw; exact Hm|].
  rewrite Hw, processo_de_reproducao_niveis.
  apply Forall_app. split.
  - apply Forall_forall. intros [p v] Hi. apply in_flat_map in Hi.
    destruct Hi as [i [_ Hi]]. cbv zeta in Hi. cbn [snd].
    pose proof (nivel_pwm_limites (ler dados i) (valor_max_pwm clk_sys freq)
                  ltac:(lia)) as Hl.
    destruct Hi as [Hi|[Hi|[]]]; inversion Hi; subst;
      (split; [exact Hl|apply u16_small; lia]).
  - repeat constructor; cbn [snd]; lia.
Qed.

(** X21 at the 125 MHz system clock of the board and the rate of the
    project: the wrap is 2603. *)
Lemma reproducao_respeita_o_wrap_witness :
  0 < TAXA_AMOSTRAGEM
  /\ TAXA_AMOSTRAGEM <= 125000000 < 65537 * TAXA_AMOSTRAGEM
  /\ wrap_configurado 125000000 TAXA_AMOSTRAGEM = 2603
  /\ Forall (fun pn => 0 <= snd pn <= wrap_configurado 125000000 TAXA_AMOSTRAGEM
                       /\ u16 (snd pn) = snd pn)
            (niveis_pwm (processo_de_reproducao 125000000 PINO_BUZZER_1 PINO_BUZZER_2
                           [4095; 100; 0] 3 TAXA_AMOSTRAGEM)).
Proof.
  assert (H1 : 0 < TAXA_AMOSTRAGEM) by reflexivity.
  assert (H2 : TAXA_AMOSTRAGEM <= 125000000 < 65537 * TAXA_AMOSTRAGEM)
    by (vm_compute; split; [discriminate|reflexivity]).
  split; [exact H1|]. split; [exact H2|]. split; [reflexivity|].
  exact (proj2 (proj2 (reproducao_respeita_o_wrap 125000000 PINO_BUZZER_1 PINO_BUZZER_2
                         [4095; 100; 0] 3 TAXA_AMOSTRAGEM H1 H2))).
Defined.
